(** * FenicsDemos: the notebook [FenicsAcoustics.ipynb] and its embedded snippets

    The repository is one Jupyter notebook.  This development carries the
    notebook's text, reads it with a JSON reader, extracts the fenced Python
    blocks of its markdown cells, scans them with a Python-style tokenizer,
    and gives a shallow embedding of the executable fragments the notebook
    shows (the two [SubDomain] classes, the marking sequence, and the
    [k^2] coefficient of the pressure weak form). *)

From Stdlib Require Import List String Ascii ZArith QArith Bool Arith Lia.
Import ListNotations.

Set Warnings "-register-all".

Local Open Scope string_scope.
Local Open Scope list_scope.
Local Open Scope nat_scope.

(** ** Characters *)

Definition dquote : ascii := ascii_of_nat 34.
Definition newline : ascii := ascii_of_nat 10.
Definition backslash : ascii := ascii_of_nat 92.

Definition is_digit (c : ascii) : bool :=
  let n := nat_of_ascii c in (48 <=? n) && (n <=? 57).

Definition is_alpha (c : ascii) : bool :=
  let n := nat_of_ascii c in
  ((65 <=? n) && (n <=? 90)) || ((97 <=? n) && (n <=? 122)) || (n =? 95).

Definition is_alnum (c : ascii) : bool := is_alpha c || is_digit c.

Definition is_blank (c : ascii) : bool :=
  let n := nat_of_ascii c in (n =? 32) || (n =? 9).

Definition str (cs : list ascii) : string := string_of_list_ascii cs.
Definition chars (s : string) : list ascii := list_ascii_of_string s.

(** ** The notebook file

    [file_lines] is src/FenicsAcoustics.ipynb line by line (168 lines, no
    newline after the last).  A Rocq string literal cannot hold the
    double-quote character conveniently, and the notebook never uses [@],
    so every double quote of the file is written [@] here; [file_text]
    puts the double quotes back and joins the lines with line feeds. *)

Definition file_lines : list string :=
  [
    "{";
    " @cells@: [";
    "  {";
    "   @cell_type@: @markdown@,";
    "   @metadata@: {},";
    "   @source@: [";
    "    @# FEniCS for acoustics\n@,";
    "    @## Author: Ben Goldsberry\n@";
    "   ]";
    "  },";
    "  {";
    "   @cell_type@: @markdown@,";
    "   @metadata@: {},";
    "   @source@: [";
    "    @# Import FEniCS module\n@,";
    "    @To import FEniCS, use:\n@,";
    "    @```python\n@,";
    "    @from dolfin import *\n@,";
    "    @```@";
    "   ]";
    "  },";
    "  {";
    "   @cell_type@: @markdown@,";
    "   @metadata@: {},";
    "   @source@: [";
    "    @# Import mesh and define function space\n@,";
    "    @```python\n@,";
    "    @mesh = Mesh('mesh.xml')\n@,";
    "    @```\n@,";
    "    @For a scalar function (pressure acoustics)\n@,";
    "    @```python\n@,";
    "    @V = FunctionSpace(mesh,'CG',2)\n@,";
    "    @p = TrialFunction(V) #pressure trial function\n@,";
    "    @dp = TestFunction(V) #pressure test function\n@,";
    "    @```\n@,";
    "    @for elasticity:\n@,";
    "    @```python\n@,";
    "    @V = VectorFunctionSpace(mesh,'CG',2)\n@,";
    "    @u = TrialFunction(V) #Displacement trial function\n@,";
    "    @du = TestFunction(V) #Displacement test function\n@,";
    "    @```\n@";
    "   ]";
    "  },";
    "  {";
    "   @cell_type@: @markdown@,";
    "   @metadata@: {},";
    "   @source@: [";
    "    @# Weak forms\n@,";
    "    @## Pressure acoustics\n@,";
    "    @The inhomogeneous Helmholtz equation for pressure is:\n@,";
    "    @$$ \\nabla^2p+k^2p =f$$\n@,";
    "    @The weak form of the above equation is:\n@,";
    "    @$$ \\frac{k^2}{\\rho}\\int \\limits_\\Omega  p \\delta p \\, d \\Omega - \\frac{1}{\\rho}\\int \\limits_\\Omega \\nabla p \\cdot \\nabla \\delta p \\,d \\Omega + \\frac{1}{\\rho}\\int \\limits_{\\Gamma_N} \\delta p (\\nabla p \\cdot n) \\,d\\Gamma_N =\\frac{1}{\\rho}\\int \\limits_\\Omega f\\delta p \\, d \\Omega     \\\\\n@,";
    "    @p = 0 \\quad \\text{on} \\quad \\Gamma_D$$\n@,";
    "    @This is written is FEniCs as\n@,";
    "    @```python\n@,";
    "    @n = FacetNormal(mesh)\n@,";
    "    @StiffnessMatrix = 1/rho*dot(grad(p),grad(dp))*dx\n@,";
    "    @MassMatrix = 1/rho*p*dp*dx\n@,";
    "    @NeumannBC = 1/rho*dp*dot(p,n)*ds\n@,";
    "    @forcingFcn = 1/rho*dp*f*dx\n@,";
    "    @WeakForm = -Stiffness + k^2*MassMatrix + NeumannBC\n@,";
    "    @```\n@,";
    "    @## Linear Elasticity\n@,";
    "    @The stiffness tensor is\n@,";
    "    @$$ C_{ijkl} = K\\delta_{ij}\\delta_{kl} +\\mu(\\delta_{ik}\\delta_{jl} +\\delta_{il}\\delta_{jk} -\\frac{2}{3}\\delta_{ij}\\delta_{kl})$$\n@,";
    "    @In FEniCS, this is implemented as:\n@,";
    "    @```python\n@,";
    "    @I = identity(2)# Second order identity tensor\n@,";
    "    @C = as_tensor(K*I[i,j]*I[k,l] + mu*(I[i,k]*I[j,l] + I[i,l]*I[j,k] - 2./3*I[i,j]*I[k,l],(i,j,k,l))\n@,";
    "    @```\n@,";
    "    @The weak form of linear elasticity is:\n@,";
    "    @$$ \\int \\limits_\\Omega [\\sigma(u)_{ij}\\varepsilon(\\delta u)_{ij} - \\omega^2\\rho \\delta u_i u_i] \\,d\\Omega -\\int \\limits_\\Gamma \\sigma_{ij}n_j\\delta u_i \\,d \\Gamma=0$$\n@,";
    "    @This is implemented in FEniCS as:\n@,";
    "    @```python\n@,";
    "    @StrainU = 0.5*(grad(u)+transpose(grad(u))) = sym(grad(u))\n@,";
    "    @StrainDu = 0.5*(grad(du)+transpose(grad(du)))\n@,";
    "    @StressU = as_tensor(C[i,j,k,l]*StrainU[k,l],(i,j))\n@,";
    "    @WeakForm = inner(StressU,StrainDu)*dx - omega**2*rho*dot(u,du)*dx - p*dot(du,n)*ds\n@,";
    "    @```@";
    "   ]";
    "  },";
    "  {";
    "   @cell_type@: @markdown@,";
    "   @metadata@: {},";
    "   @source@: [";
    "    @## Nonlinear Elasticity\n@,";
    "    @```python\n@,";
    "    @F = grad(u)+I\n@,";
    "    @C = F.T*F #Right Cauchy-Green tensor\n@,";
    "    @E = 0.5*(C-I) #Finite Strain tensor\n@,";
    "    @W = lmbda/2*tr(E)**2+mu*tr(E*E) # St. Venant-Kirchhoff Strain-energy density\n@,";
    "    @E = variable(E)\n@,";
    "    @S = diff(W,E) #Second Piola-Stress tensor\n@,";
    "    @```@";
    "   ]";
    "  },";
    "  {";
    "   @cell_type@: @markdown@,";
    "   @metadata@: {},";
    "   @source@: [";
    "    @## Subdomains\n@,";
    "    @```python\n@,";
    "    @class GammaN(SubDomain):\n@,";
    "    @    def inside(self, x, on_boundary):\n@,";
    "    @        tol = 1E-14\n@,";
    "    @        return on_boundary and near(x[0], 0, tol)\n@,";
    "    @        \n@,";
    "    @class GammaD(SubDomain):\n@,";
    "    @    def inside(self, x, on_boundary):\n@,";
    "    @        tol = 1E-14\n@,";
    "    @        return on_boundary and near(x[0], 0, tol)\n@,";
    "    @NeumannBoundary = GammaN()\n@,";
    "    @DirichletBoundary = GammaD()\n@,";
    "    @boundary_markers = FacetFunction('size_t', mesh)\n@,";
    "    @boundary_markers.set_all(0)\n@,";
    "    @DirichletBoundary.mark(boundary_markers,1)\n@,";
    "    @NeumannBoundary.mark(boundary_markers,2)\n@,";
    "    @ds = Measure('ds', domain=mesh, subdomain_data=boundary_markers)\n@,";
    "    @bc = DirichletBC(V,Constant(0.0),DirichletBoundary)\n@,";
    "    @```@";
    "   ]";
    "  },";
    "  {";
    "   @cell_type@: @markdown@,";
    "   @metadata@: {},";
    "   @source@: [";
    "    @## Solving and plotting\n@,";
    "    @```python\n@,";
    "    @solve(WeakForm==forcingFcn,u,bc)\n@,";
    "    @file = File(\@u.pvd\@)\n@,";
    "    @file << u\n@,";
    "    @plot(u)\n@,";
    "    @```@";
    "   ]";
    "  },";
    "  {";
    "   @cell_type@: @code@,";
    "   @execution_count@: null,";
    "   @metadata@: {";
    "    @collapsed@: true";
    "   },";
    "   @outputs@: [],";
    "   @source@: []";
    "  }";
    " ],";
    " @metadata@: {";
    "  @kernelspec@: {";
    "   @display_name@: @Python 2@,";
    "   @language@: @python@,";
    "   @name@: @python2@";
    "  },";
    "  @language_info@: {";
    "   @codemirror_mode@: {";
    "    @name@: @ipython@,";
    "    @version@: 2";
    "   },";
    "   @file_extension@: @.py@,";
    "   @mimetype@: @text/x-python@,";
    "   @name@: @python@,";
    "   @nbconvert_exporter@: @python@,";
    "   @pygments_lexer@: @ipython2@,";
    "   @version@: @2.7.12@";
    "  }";
    " },";
    " @nbformat@: 4,";
    " @nbformat_minor@: 1";
    "}"
  ].

Definition from_at (c : ascii) : ascii :=
  if Ascii.eqb c "@"%char then dquote else c.

Fixpoint join_lines (ls : list string) : list ascii :=
  match ls with
  | [] => []
  | [l] => chars l
  | l :: rest => chars l ++ newline :: join_lines rest
  end.

Definition file_text : list ascii := map from_at (join_lines file_lines).

(** ** JSON *)

Module Json.

Inductive value : Type :=
| Null
| Bool (b : bool)
| Num (z : Z)
| Str (s : string)
| Arr (vs : list value)
| Obj (fields : list (string * value)).

Inductive token : Type :=
| TLBrace | TRBrace | TLBrack | TRBrack | TColon | TComma
| TStr (s : string)
| TNum (z : Z)
| TTrue | TFalse | TNull.

(** The character an escape sequence stands for.  [\uXXXX] is not read:
    the reader accepts a subset of JSON, which is all the notebook uses. *)
Definition unescape (c : ascii) : option ascii :=
  let n := nat_of_ascii c in
  if n =? 34 then Some dquote
  else if n =? 92 then Some backslash
  else if n =? 47 then Some "/"%char
  else if n =? 98 then Some (ascii_of_nat 8)
  else if n =? 102 then Some (ascii_of_nat 12)
  else if n =? 110 then Some newline
  else if n =? 114 then Some (ascii_of_nat 13)
  else if n =? 116 then Some (ascii_of_nat 9)
  else None.

(** Reads a string body, the opening quote already consumed. *)
Fixpoint lex_string (cs : list ascii) : option (list ascii * list ascii) :=
  match cs with
  | [] => None
  | c :: r =>
      if Ascii.eqb c dquote then Some ([], r)
      else if Ascii.eqb c backslash then
        match r with
        | [] => None
        | e :: r' =>
            match unescape e, lex_string r' with
            | Some ch, Some (body, rest) => Some (ch :: body, rest)
            | _, _ => None
            end
        end
      else if nat_of_ascii c <? 32 then None
      else
        match lex_string r with
        | Some (body, rest) => Some (c :: body, rest)
        | None => None
        end
  end.

Fixpoint span (p : ascii -> bool) (cs : list ascii) : list ascii * list ascii :=
  match cs with
  | [] => ([], [])
  | c :: r =>
      if p c then let (a, b) := span p r in (c :: a, b) else ([], cs)
  end.

Definition digit_val (c : ascii) : Z := Z.of_nat (nat_of_ascii c - 48).

Definition digits_val (ds : list ascii) : Z :=
  fold_left (fun acc d => 10 * acc + digit_val d)%Z ds 0%Z.

(** An integer without fraction or exponent; no leading zero. *)
Definition lex_int (cs : list ascii) : option (Z * list ascii) :=
  let (ds, rest) := span is_digit cs in
  match ds with
  | [] => None
  | d :: more =>
      if Ascii.eqb d "0"%char && negb (List.length more =? 0) then None
      else
        match rest with
        | c :: _ =>
            if Ascii.eqb c "."%char || Ascii.eqb c "e"%char || Ascii.eqb c "E"%char
            then None else Some (digits_val ds, rest)
        | [] => Some (digits_val ds, rest)
        end
  end.

Definition is_ws (c : ascii) : bool :=
  let n := nat_of_ascii c in (n =? 32) || (n =? 9) || (n =? 10) || (n =? 13).

Fixpoint strip_prefix (p cs : list ascii) : option (list ascii) :=
  match p, cs with
  | [], _ => Some cs
  | a :: p', c :: cs' => if Ascii.eqb a c then strip_prefix p' cs' else None
  | _ :: _, [] => None
  end.

Fixpoint lex (fuel : nat) (cs : list ascii) : option (list token) :=
  match fuel with
  | O => None
  | S fuel' =>
      match cs with
      | [] => Some []
      | c :: r =>
          let continue (t : token) (rest : list ascii) :=
            option_map (cons t) (lex fuel' rest) in
          if is_ws c then lex fuel' r
          else if Ascii.eqb c "{"%char then continue TLBrace r
          else if Ascii.eqb c "}"%char then continue TRBrace r
          else if Ascii.eqb c "["%char then continue TLBrack r
          else if Ascii.eqb c "]"%char then continue TRBrack r
          else if Ascii.eqb c ":"%char then continue TColon r
          else if Ascii.eqb c ","%char then continue TComma r
          else if Ascii.eqb c dquote then
            match lex_string r with
            | Some (body, rest) => continue (TStr (str body)) rest
            | None => None
            end
          else if Ascii.eqb c "-"%char then
            match lex_int r with
            | Some (z, rest) => continue (TNum (- z)) rest
            | None => None
            end
          else if is_digit c then
            match lex_int cs with
            | Some (z, rest) => continue (TNum z) rest
            | None => None
            end
          else
            match strip_prefix (chars "true") cs,
                  strip_prefix (chars "false") cs,
                  strip_prefix (chars "null") cs with
            | Some rest, _, _ => continue TTrue rest
            | _, Some rest, _ => continue TFalse rest
            | _, _, Some rest => continue TNull rest
            | _, _, _ => None
            end
      end
  end.

(** Recursive descent over the tokens.  [parse_value] reads one value;
    [parse_elems] reads [, v]* followed by the closing bracket;
    [parse_members] reads [, "k" : v]* followed by the closing brace. *)
Fixpoint parse_value (fuel : nat) (ts : list token) {struct fuel}
  : option (value * list token) :=
  match fuel with
  | O => None
  | S fuel' =>
      match ts with
      | TNull :: r => Some (Null, r)
      | TTrue :: r => Some (Bool true, r)
      | TFalse :: r => Some (Bool false, r)
      | TNum z :: r => Some (Num z, r)
      | TStr s :: r => Some (Str s, r)
      | TLBrack :: TRBrack :: r => Some (Arr [], r)
      | TLBrack :: r =>
          match parse_value fuel' r with
          | Some (v, r1) =>
              match parse_elems fuel' r1 with
              | Some (vs, r2) => Some (Arr (v :: vs), r2)
              | None => None
              end
          | None => None
          end
      | TLBrace :: TRBrace :: r => Some (Obj [], r)
      | TLBrace :: TStr k :: TColon :: r =>
          match parse_value fuel' r with
          | Some (v, r1) =>
              match parse_members fuel' r1 with
              | Some (fs, r2) => Some (Obj ((k, v) :: fs), r2)
              | None => None
              end
          | None => None
          end
      | _ => None
      end
  end
with parse_elems (fuel : nat) (ts : list token) {struct fuel}
  : option (list value * list token) :=
  match fuel with
  | O => None
  | S fuel' =>
      match ts with
      | TRBrack :: r => Some ([], r)
      | TComma :: r =>
          match parse_value fuel' r with
          | Some (v, r1) =>
              match parse_elems fuel' r1 with
              | Some (vs, r2) => Some (v :: vs, r2)
              | None => None
              end
          | None => None
          end
      | _ => None
      end
  end
with parse_members (fuel : nat) (ts : list token) {struct fuel}
  : option (list (string * value) * list token) :=
  match fuel with
  | O => None
  | S fuel' =>
      match ts with
      | TRBrace :: r => Some ([], r)
      | TComma :: TStr k :: TColon :: r =>
          match parse_value fuel' r with
          | Some (v, r1) =>
              match parse_members fuel' r1 with
              | Some (fs, r2) => Some ((k, v) :: fs, r2)
              | None => None
              end
          | None => None
          end
      | _ => None
      end
  end.

(** A JSON text is one value and nothing after it. *)
Definition parse (cs : list ascii) : option value :=
  match lex (S (List.length cs)) cs with
  | Some ts =>
      match parse_value (S (List.length ts)) ts with
      | Some (v, []) => Some v
      | _ => None
      end
  | None => None
  end.

Fixpoint field (k : string) (fs : list (string * value)) : option value :=
  match fs with
  | [] => None
  | (k', v) :: rest => if String.eqb k k' then Some v else field k rest
  end.

Definition get (k : string) (v : value) : option value :=
  match v with
  | Obj fs => field k fs
  | _ => None
  end.

End Json.

Definition notebook_json : option Json.value := Json.parse file_text.

(** ** Notebook structure (nbformat 4) *)

Record cell : Type := { cell_type : string; source : list string }.

Definition as_str (v : Json.value) : option string :=
  match v with
  | Json.Str s => Some s
  | _ => None
  end.

Fixpoint all_some {A : Type} (xs : list (option A)) : option (list A) :=
  match xs with
  | [] => Some []
  | Some x :: rest => option_map (cons x) (all_some rest)
  | None :: _ => None
  end.

Definition cell_of (v : Json.value) : option cell :=
  match Json.get "cell_type" v, Json.get "source" v with
  | Some (Json.Str t), Some (Json.Arr ls) =>
      option_map (fun src => {| cell_type := t; source := src |})
                 (all_some (map as_str ls))
  | _, _ => None
  end.

Definition cells_of (v : Json.value) : option (list cell) :=
  match Json.get "cells" v with
  | Some (Json.Arr cs) => all_some (map cell_of cs)
  | _ => None
  end.

Definition notebook_cells : list cell :=
  match notebook_json with
  | Some v => match cells_of v with Some cs => cs | None => [] end
  | None => []
  end.

(** ** Fenced Python blocks of the markdown cells *)

(** The text of a cell is its source strings one after the other. *)
Definition cell_text (c : cell) : list ascii := flat_map chars (source c).

Fixpoint split_lines_acc (acc cs : list ascii) : list (list ascii) :=
  match cs with
  | [] => [rev acc]
  | c :: r =>
      if Ascii.eqb c newline then rev acc :: split_lines_acc [] r
      else split_lines_acc (c :: acc) r
  end.

Definition split_lines (cs : list ascii) : list (list ascii) :=
  split_lines_acc [] cs.

Definition fence_open : string := "```python".
Definition fence_close : string := "```".

(** A snippet is the run of lines after a [```python] line up to the next
    [```] line.  [cur] is the block being collected, most recent line
    first, when inside a block. *)
Fixpoint fenced (cur : option (list string)) (ls : list (list ascii))
  : list (list string) :=
  match ls with
  | [] => []
  | l :: rest =>
      match cur with
      | None =>
          if String.eqb (str l) fence_open then fenced (Some []) rest
          else fenced None rest
      | Some acc =>
          if String.eqb (str l) fence_close then rev acc :: fenced None rest
          else fenced (Some (str l :: acc)) rest
      end
  end.

Definition cell_snippets (c : cell) : list (list string) :=
  if String.eqb (cell_type c) "markdown"
  then fenced None (split_lines (cell_text c))
  else [].

Definition snippets : list (list string) := flat_map cell_snippets notebook_cells.

(** ** A Python tokenizer for the snippets

    One physical line at a time, as CPython's tokenizer does: blanks are
    skipped, [#] starts a comment that runs to the end of the line, names,
    numbers, string literals and operators become tokens, and every open
    bracket is pushed on a stack that lives across lines.  A physical line
    that ends with the stack non-empty is continued by the next one
    (implicit line joining); at the end of the input a non-empty stack is
    the tokenizer's "EOF in multi-line statement" error. *)

Module Py.

Inductive tok : Type :=
| Name (s : string)
| Number (s : string)
| StrLit (s : string)
| Op (s : string).

Definition tok_eqb (a b : tok) : bool :=
  match a, b with
  | Name x, Name y => String.eqb x y
  | Number x, Number y => String.eqb x y
  | StrLit x, StrLit y => String.eqb x y
  | Op x, Op y => String.eqb x y
  | _, _ => false
  end.

(** Body of a single-line string literal opened by [q]. *)
Fixpoint lex_quoted (q : ascii) (cs : list ascii)
  : option (list ascii * list ascii) :=
  match cs with
  | [] => None
  | c :: r =>
      if Ascii.eqb c q then Some ([], r)
      else if Ascii.eqb c backslash then
        match r with
        | [] => None
        | e :: r' =>
            match lex_quoted q r' with
            | Some (body, rest) => Some (c :: e :: body, rest)
            | None => None
            end
        end
      else
        match lex_quoted q r with
        | Some (body, rest) => Some (c :: body, rest)
        | None => None
        end
  end.

(** Exponent part of a float literal: [e] or [E], an optional sign and at
    least one digit; otherwise nothing is consumed. *)
Definition lex_exponent (cs : list ascii) : list ascii * list ascii :=
  match cs with
  | e :: r =>
      if Ascii.eqb e "e"%char || Ascii.eqb e "E"%char then
        match r with
        | sg :: r' =>
            if Ascii.eqb sg "+"%char || Ascii.eqb sg "-"%char then
              match Json.span is_digit r' with
              | ([], _) => ([], cs)
              | (ds, rest) => (e :: sg :: ds, rest)
              end
            else
              match Json.span is_digit r with
              | ([], _) => ([], cs)
              | (ds, rest) => (e :: ds, rest)
              end
        | [] => ([], cs)
        end
      else ([], cs)
  | [] => ([], cs)
  end.

(** A decimal integer or float literal: digits, an optional [.] with
    optional digits, an optional exponent. *)
Definition lex_number (cs : list ascii) : list ascii * list ascii :=
  let (ip, r1) := Json.span is_digit cs in
  let (fp, r2) :=
    match r1 with
    | d :: r =>
        if Ascii.eqb d "."%char
        then let (ds, rest) := Json.span is_digit r in (d :: ds, rest)
        else ([], r1)
    | [] => ([], r1)
    end in
  let (ep, r3) := lex_exponent r2 in
  (ip ++ fp ++ ep, r3).

Definition ops3 : list string := ["**="; "//="; ">>="; "<<="].
Definition ops2 : list string :=
  ["**"; "//"; "=="; "!="; "<="; ">="; "<<"; ">>"; "<>";
   "+="; "-="; "*="; "/="; "%="; "&="; "|="; "^="].
Definition ops1 : list string :=
  ["+"; "-"; "*"; "/"; "%"; "&"; "|"; "^"; "~"; "<"; ">"; "="; "."; ",";
   ":"; ";"; "@"; "`"; "("; ")"; "["; "]"; "{"; "}"].

(** The first operator of [ops] that starts [cs]. *)
Fixpoint match_op (ops : list string) (cs : list ascii)
  : option (string * list ascii) :=
  match ops with
  | [] => None
  | o :: more =>
      match Json.strip_prefix (chars o) cs with
      | Some rest => Some (o, rest)
      | None => match_op more cs
      end
  end.

Definition lex_op (cs : list ascii) : option (string * list ascii) :=
  match match_op ops3 cs with
  | Some r => Some r
  | None =>
      match match_op ops2 cs with
      | Some r => Some r
      | None => match_op ops1 cs
      end
  end.

Definition closer (c : ascii) : ascii :=
  if Ascii.eqb c "("%char then ")"%char
  else if Ascii.eqb c "["%char then "]"%char
  else "}"%char.

Definition is_open (o : string) : bool :=
  String.eqb o "(" || String.eqb o "[" || String.eqb o "{".
Definition is_close (o : string) : bool :=
  String.eqb o ")" || String.eqb o "]" || String.eqb o "}".

Inductive lex_error : Type :=
| UnterminatedString
| BadCharacter (c : ascii)
| UnmatchedClose (o : string)
| EofInBrackets (still_open : list string).

(** The bracket stack after an operator token: [inr] when a closing
    bracket has no matching opening one. *)
Definition step_stack (o : string) (stack : list string)
  : list string + lex_error :=
  if is_open o then inl (o :: stack)
  else if is_close o then
    match stack with
    | top :: below =>
        if String.eqb (str [closer (match chars top with c :: _ => c | [] => " "%char end)]) o
        then inl below else inr (UnmatchedClose o)
    | [] => inr (UnmatchedClose o)
    end
  else inl stack.

(** Tokens of one physical line and the bracket stack after it. *)
Fixpoint lex_line (fuel : nat) (cs : list ascii) (stack : list string)
  : (list tok * list string) + lex_error :=
  match fuel with
  | O => inl ([], stack)
  | S fuel' =>
      match cs with
      | [] => inl ([], stack)
      | c :: r =>
          let emit (t : tok) (rest : list ascii) (stk : list string) :=
            match lex_line fuel' rest stk with
            | inl (ts, stk') => inl (t :: ts, stk')
            | inr e => inr e
            end in
          if is_blank c then lex_line fuel' r stack
          else if Ascii.eqb c "#"%char then inl ([], stack)
          else if Ascii.eqb c "'"%char || Ascii.eqb c dquote then
            match lex_quoted c r with
            | Some (body, rest) => emit (StrLit (str body)) rest stack
            | None => inr UnterminatedString
            end
          else if is_alpha c then
            let (w, rest) := Json.span is_alnum cs in
            emit (Name (str w)) rest stack
          else if is_digit c
                  || (Ascii.eqb c "."%char
                      && match r with d :: _ => is_digit d | [] => false end) then
            let (w, rest) := lex_number cs in
            emit (Number (str w)) rest stack
          else
            match lex_op cs with
            | Some (o, rest) =>
                match step_stack o stack with
                | inl stk => emit (Op o) rest stk
                | inr e => inr e
                end
            | None => inr (BadCharacter c)
            end
      end
  end.

(** A logical line: the indentation of its first physical line and its
    tokens. *)
Record lline : Type := { indent : nat; toks : list tok }.

Definition indent_of (cs : list ascii) : nat :=
  List.length (fst (Json.span is_blank cs)).

Definition close_line (cur : option lline) : list lline :=
  match cur with
  | Some l => [l]
  | None => []
  end.

(** Physical lines to logical lines.  [cur] is the logical line being
    continued inside brackets, if any.  A physical line with no token
    outside brackets (blank, or comment only) makes no logical line.  The
    result is the logical lines read, the last one possibly still open,
    and the error that stopped the tokenizer, if any. *)
Fixpoint lex_lines (ls : list string) (cur : option lline) (stack : list string)
  : list lline * option lex_error :=
  match ls with
  | [] =>
      match stack with
      | [] => (close_line cur, None)
      | _ :: _ => (close_line cur, Some (EofInBrackets stack))
      end
  | l :: rest =>
      let cs := chars l in
      match lex_line (S (List.length cs)) cs stack with
      | inr e => (close_line cur, Some e)
      | inl (ts, stk) =>
          let joined :=
            match cur with
            | Some ll => Some {| indent := indent ll; toks := toks ll ++ ts |}
            | None =>
                match ts with
                | [] => None
                | _ :: _ => Some {| indent := indent_of cs; toks := ts |}
                end
            end in
          match stk with
          | [] =>
              let (lls, e) := lex_lines rest None [] in
              (close_line joined ++ lls, e)
          | _ :: _ => lex_lines rest joined stk
          end
      end
  end.

(** The tokens read from a snippet, whether or not the tokenizer ends in
    an error. *)
Definition scan (snippet : list string) : list lline :=
  fst (lex_lines snippet None []).

Definition tokenize (snippet : list string) : list lline + lex_error :=
  match lex_lines snippet None [] with
  | (lls, None) => inl lls
  | (_, Some e) => inr e
  end.

Definition all_toks (snippet : list string) : list tok :=
  flat_map toks (scan snippet).

(** Reserved words of Python 2.7, the notebook's kernel. *)
Definition keywords : list string :=
  ["and"; "as"; "assert"; "break"; "class"; "continue"; "def"; "del";
   "elif"; "else"; "except"; "exec"; "finally"; "for"; "from"; "global";
   "if"; "import"; "in"; "is"; "lambda"; "not"; "or"; "pass"; "print";
   "raise"; "return"; "try"; "while"; "with"; "yield"].

Definition mem (x : string) (xs : list string) : bool :=
  existsb (String.eqb x) xs.

Definition is_keyword (x : string) : bool := mem x keywords.

(** *** Expressions and statements *)

Inductive expr : Type :=
| EName (x : string)
| ENum (lit : string)
| EStr (lit : string)
| ETuple (es : list expr)
| EUnary (op : string) (e : expr)
| EBin (op : string) (l r : expr)
| ECall (f : expr) (args : list expr) (kwargs : list (string * expr))
| ESubscript (e idx : expr)
| EAttr (e : expr) (attr : string).

Inductive stmt : Type :=
| SImportStar (module : string)
| SClass (name : string) (bases : list expr) (body : list stmt)
| SDef (name : string) (params : list string) (body : list stmt)
| SReturn (e : expr)
| SPass
| SAssign (targets : list expr) (value : expr)
| SExpr (e : expr).

(** Binding strength, weakest first, as in the Python grammar:
    0 [or], 1 [and], 2 [not], 3 comparisons, 4 [|], 5 [^], 6 [&],
    7 shifts, 8 [+ -], 9 [* / // %], 10 unary [+ - ~], 11 [**],
    12 atoms with their trailers. *)
Definition binops (lvl : nat) : list tok :=
  match lvl with
  | 0 => [Name "or"]
  | 1 => [Name "and"]
  | 3 => [Op "=="; Op "!="; Op "<"; Op ">"; Op "<="; Op ">="; Op "<>";
          Name "in"; Name "is"]
  | 4 => [Op "|"]
  | 5 => [Op "^"]
  | 6 => [Op "&"]
  | 7 => [Op "<<"; Op ">>"]
  | 8 => [Op "+"; Op "-"]
  | 9 => [Op "*"; Op "/"; Op "//"; Op "%"]
  | _ => []
  end.

Definition tok_text (t : tok) : string :=
  match t with
  | Name s | Number s | StrLit s | Op s => s
  end.

Definition is_op (o : string) (t : tok) : bool := tok_eqb t (Op o).
Definition is_name (n : string) (t : tok) : bool := tok_eqb t (Name n).

Definition expect (o : string) (ts : list tok) : option (list tok) :=
  match ts with
  | t :: r => if is_op o t then Some r else None
  | [] => None
  end.

(** Recursive descent with precedence climbing.  The parser reads a subset
    of the expression grammar (no lambda, conditional expression, display,
    comprehension or slice); what it accepts is grouped as Python groups
    it. *)
Fixpoint parse_expr (fuel lvl : nat) (ts : list tok) {struct fuel}
  : option (expr * list tok) :=
  match fuel with
  | O => None
  | S f =>
      match lvl with
      | 2 =>
          match ts with
          | t :: r =>
              if is_name "not" t then
                match parse_expr f 2 r with
                | Some (e, r') => Some (EUnary "not" e, r')
                | None => None
                end
              else parse_expr f 3 ts
          | [] => None
          end
      | 10 =>
          match ts with
          | t :: r =>
              if is_op "+" t || is_op "-" t || is_op "~" t then
                match parse_expr f 10 r with
                | Some (e, r') => Some (EUnary (tok_text t) e, r')
                | None => None
                end
              else parse_expr f 11 ts
          | [] => None
          end
      | 11 =>
          match parse_expr f 12 ts with
          | Some (b, r) =>
              match expect "**" r with
              | Some r' =>
                  match parse_expr f 10 r' with
                  | Some (e, r'') => Some (EBin "**" b e, r'')
                  | None => None
                  end
              | None => Some (b, r)
              end
          | None => None
          end
      | 12 =>
          match ts with
          | Name x :: r =>
              if is_keyword x then None else parse_trailers f (EName x) r
          | Number n :: r => parse_trailers f (ENum n) r
          | StrLit l :: r => parse_trailers f (EStr l) r
          | Op o :: r =>
              if String.eqb o "(" then
                match expect ")" r with
                | Some r' => parse_trailers f (ETuple []) r'
                | None =>
                    match parse_list f r with
                    | Some (es, comma, r') =>
                        match expect ")" r' with
                        | Some r'' =>
                            match es, comma with
                            | [e], false => parse_trailers f e r''
                            | _, _ => parse_trailers f (ETuple es) r''
                            end
                        | None => None
                        end
                    | None => None
                    end
                end
              else None
          | [] => None
          end
      | _ =>
          match parse_expr f (S lvl) ts with
          | Some (lhs, r) => parse_binrest f lvl lhs r
          | None => None
          end
      end
  end

(** [lhs] read at level [lvl]; more operators of that level associate to
    the left. *)
with parse_binrest (fuel lvl : nat) (lhs : expr) (ts : list tok) {struct fuel}
  : option (expr * list tok) :=
  match fuel with
  | O => None
  | S f =>
      match ts with
      | t :: r =>
          if existsb (tok_eqb t) (binops lvl) then
            match parse_expr f (S lvl) r with
            | Some (rhs, r') => parse_binrest f lvl (EBin (tok_text t) lhs rhs) r'
            | None => None
            end
          else Some (lhs, ts)
      | [] => Some (lhs, ts)
      end
  end

(** Calls, subscripts and attribute references after an atom. *)
with parse_trailers (fuel : nat) (e : expr) (ts : list tok) {struct fuel}
  : option (expr * list tok) :=
  match fuel with
  | O => None
  | S f =>
      match ts with
      | Op o :: r =>
          if String.eqb o "(" then
            match parse_args f r with
            | Some (args, kwargs, r') => parse_trailers f (ECall e args kwargs) r'
            | None => None
            end
          else if String.eqb o "[" then
            match parse_list f r with
            | Some (es, comma, r') =>
                match expect "]" r' with
                | Some r'' =>
                    match es, comma with
                    | [i], false => parse_trailers f (ESubscript e i) r''
                    | _, _ => parse_trailers f (ESubscript e (ETuple es)) r''
                    end
                | None => None
                end
            | None => None
            end
          else if String.eqb o "." then
            match r with
            | Name a :: r' =>
                if is_keyword a then None else parse_trailers f (EAttr e a) r'
            | _ => None
            end
          else Some (e, ts)
      | _ => Some (e, ts)
      end
  end

(** One or more expressions separated by commas; the flag tells whether a
    comma was read (a tuple). *)
with parse_list (fuel : nat) (ts : list tok) {struct fuel}
  : option (list expr * bool * list tok) :=
  match fuel with
  | O => None
  | S f =>
      match parse_expr f 0 ts with
      | Some (e, r) =>
          match expect "," r with
          | Some r' =>
              match parse_list f r' with
              | Some (es, _, r'') => Some (e :: es, true, r'')
              | None => Some ([e], true, r')
              end
          | None => Some ([e], false, r)
          end
      | None => None
      end
  end

(** Call arguments after the opening parenthesis, through the closing
    one: positional arguments first, then [name=value] ones. *)
with parse_args (fuel : nat) (ts : list tok) {struct fuel}
  : option (list expr * list (string * expr) * list tok) :=
  match fuel with
  | O => None
  | S f =>
      match expect ")" ts with
      | Some r => Some ([], [], r)
      | None =>
          let more (r : list tok) :=
            match expect "," r with
            | Some r' => parse_args f r'
            | None =>
                match expect ")" r with
                | Some r' => Some ([], [], r')
                | None => None
                end
            end in
          match ts with
          | Name k :: Op o :: r =>
              if String.eqb o "=" && negb (is_keyword k) then
                match parse_expr f 0 r with
                | Some (v, r1) =>
                    match more r1 with
                    | Some ([], kws, r2) => Some ([], (k, v) :: kws, r2)
                    | _ => None
                    end
                | None => None
                end
              else
                match parse_expr f 0 ts with
                | Some (v, r1) =>
                    match more r1 with
                    | Some (args, kws, r2) => Some (v :: args, kws, r2)
                    | None => None
                    end
                | None => None
                end
          | _ =>
              match parse_expr f 0 ts with
              | Some (v, r1) =>
                  match more r1 with
                  | Some (args, kws, r2) => Some (v :: args, kws, r2)
                  | None => None
                  end
              | None => None
              end
          end
      end
  end.

Definition tuple_of (es : list expr) (comma : bool) : expr :=
  match es, comma with
  | [e], false => e
  | _, _ => ETuple es
  end.

(** An expression list that uses up [ts]. *)
Definition parse_whole (ts : list tok) : option expr :=
  match parse_list (16 * S (List.length ts)) ts with
  | Some (es, comma, []) => Some (tuple_of es comma)
  | _ => None
  end.

(** *** Statements *)

(** [e1 = e2 = ... = en]: the expression lists between the [=] signs. *)
Fixpoint parse_chain (fuel : nat) (ts : list tok) : option (list expr) :=
  match fuel with
  | O => None
  | S f =>
      match parse_list (16 * S (List.length ts)) ts with
      | Some (es, comma, []) => Some [tuple_of es comma]
      | Some (es, comma, r) =>
          match expect "=" r with
          | Some r' => option_map (cons (tuple_of es comma)) (parse_chain f r')
          | None => None
          end
      | None => None
      end
  end.

(** Parameter names of a [def], after the opening parenthesis, through
    the closing one and the colon that ends the header. *)
Fixpoint parse_params (ts : list tok) : option (list string) :=
  match ts with
  | [Op c; Op d] =>
      if String.eqb c ")" && String.eqb d ":" then Some [] else None
  | Name x :: Op o :: r =>
      if is_keyword x then None
      else if String.eqb o "," then option_map (cons x) (parse_params r)
      else if String.eqb o ")" then
        match r with
        | [Op d] => if String.eqb d ":" then Some [x] else None
        | _ => None
        end
      else None
  | _ => None
  end.

Inductive line_kind : Type :=
| Header (mk : list stmt -> stmt)
| Simple (s : stmt)
| Malformed.

Definition classify (ts : list tok) : line_kind :=
  match ts with
  | Name w :: r =>
      if String.eqb w "class" then
        match r with
        | [Name c; Op d] =>
            if String.eqb d ":" && negb (is_keyword c)
            then Header (SClass c []) else Malformed
        | Name c :: Op o :: r' =>
            if String.eqb o "(" && negb (is_keyword c) then
              match parse_args (16 * S (List.length r')) r' with
              | Some (bases, [], [Op d]) =>
                  if String.eqb d ":" then Header (SClass c bases) else Malformed
              | _ => Malformed
              end
            else Malformed
        | _ => Malformed
        end
      else if String.eqb w "def" then
        match r with
        | Name f :: Op o :: r' =>
            if String.eqb o "(" && negb (is_keyword f) then
              match parse_params r' with
              | Some ps => Header (SDef f ps)
              | None => Malformed
              end
            else Malformed
        | _ => Malformed
        end
      else if String.eqb w "from" then
        match r with
        | [Name m; Name i; Op o] =>
            if String.eqb i "import" && String.eqb o "*" && negb (is_keyword m)
            then Simple (SImportStar m) else Malformed
        | _ => Malformed
        end
      else if String.eqb w "return" then
        match parse_whole r with
        | Some e => Simple (SReturn e)
        | None => Malformed
        end
      else if String.eqb w "pass" then
        match r with
        | [] => Simple SPass
        | _ => Malformed
        end
      else
        match parse_chain (S (List.length ts)) ts with
        | Some [e] => Simple (SExpr e)
        | Some es => Simple (SAssign (removelast es) (last es (ETuple [])))
        | None => Malformed
        end
  | _ =>
      match parse_chain (S (List.length ts)) ts with
      | Some [e] => Simple (SExpr e)
      | Some es => Simple (SAssign (removelast es) (last es (ETuple [])))
      | None => Malformed
      end
  end.

(** The statements of a block whose lines are indented by [ind]; the
    block ends at the first line indented less.  A header line takes the
    deeper-indented lines after it as its body. *)
Fixpoint parse_block (fuel ind : nat) (ls : list lline) {struct fuel}
  : option (list stmt * list lline) :=
  match fuel with
  | O => None
  | S f =>
      match ls with
      | [] => Some ([], [])
      | l :: rest =>
          if indent l <? ind then Some ([], ls)
          else if ind <? indent l then None
          else
            match classify (toks l) with
            | Malformed => None
            | Simple st =>
                match parse_block f ind rest with
                | Some (more, rest') => Some (st :: more, rest')
                | None => None
                end
            | Header mk =>
                match rest with
                | b :: _ =>
                    if ind <? indent b then
                      match parse_block f (indent b) rest with
                      | Some (body, rest') =>
                          match parse_block f ind rest' with
                          | Some (more, rest'') => Some (mk body :: more, rest'')
                          | None => None
                          end
                      | None => None
                      end
                    else None
                | [] => None
                end
            end
      end
  end.

Definition parse_module (ls : list lline) : option (list stmt) :=
  match parse_block (S (List.length ls)) 0 ls with
  | Some (body, []) => Some body
  | _ => None
  end.

(** What may stand left of [=]: a name, an attribute reference, a
    subscription, or a non-empty tuple of such.  Anything else is the
    compiler's "can't assign to operator / function call / literal". *)
Fixpoint valid_target (e : expr) : bool :=
  match e with
  | EName _ | EAttr _ _ | ESubscript _ _ => true
  | ETuple (_ :: _ as es) => forallb valid_target es
  | _ => false
  end.

Fixpoint targets_ok (st : stmt) : bool :=
  match st with
  | SAssign targets _ => forallb valid_target targets
  | SClass _ _ body | SDef _ _ body => forallb targets_ok body
  | _ => true
  end.

Inductive syntax_error : Type :=
| TokenError (e : lex_error)
| ParseError
| CannotAssign.

(** [None] when the snippet is tokenized, parsed and passes the target
    check; otherwise the first stage that rejects it. *)
Definition syntax_check (snippet : list string) : option syntax_error :=
  match tokenize snippet with
  | inr e => Some (TokenError e)
  | inl lls =>
      match parse_module lls with
      | None => Some ParseError
      | Some body =>
          if forallb targets_ok body then None else Some CannotAssign
      end
  end.

Definition parse_snippet (snippet : list string) : option (list stmt) :=
  match tokenize snippet with
  | inl lls => parse_module lls
  | inr _ => None
  end.

End Py.

(** ** Names bound and names used *)

Module Scope.
Import Py.

Fixpoint names (e : expr) : list string :=
  match e with
  | EName x => [x]
  | ENum _ | EStr _ => []
  | ETuple es => flat_map names es
  | EUnary _ e1 => names e1
  | EBin _ l r => names l ++ names r
  | ECall f args kwargs =>
      names f ++ flat_map names args
              ++ flat_map (fun kv => names (snd kv)) kwargs
  | ESubscript e1 i => names e1 ++ names i
  | EAttr e1 _ => names e1
  end.

(** Names an assignment target binds, and names it only reads. *)
Fixpoint target_binds (e : expr) : list string :=
  match e with
  | EName x => [x]
  | ETuple es => flat_map target_binds es
  | _ => []
  end.

Fixpoint target_reads (e : expr) : list string :=
  match e with
  | EName _ => []
  | ETuple es => flat_map target_reads es
  | other => names other
  end.

Definition without (xs bound : list string) : list string :=
  filter (fun x => negb (mem x bound)) xs.

(** Names a statement binds by writing them: assignment targets, class
    and function names.  A star import also binds names, the module's
    public ones, which the text does not list; [binds_name] below adds
    them from a table of exports. *)
Definition binds_stmt (st : stmt) : list string :=
  match st with
  | SAssign targets _ => flat_map target_binds targets
  | SClass c _ _ => [c]
  | SDef f _ _ => [f]
  | _ => []
  end.

Definition binds (body : list stmt) : list string := flat_map binds_stmt body.

(** Names a statement reads from the enclosing namespace.  Inside a
    [def] the parameters and the names the body assigns are local; inside
    a [class] the names the body binds are the class's own. *)
Fixpoint refs_stmt (st : stmt) : list string :=
  match st with
  | SImportStar _ | SPass => []
  | SAssign targets v => flat_map target_reads targets ++ names v
  | SExpr e | SReturn e => names e
  | SClass _ bases body =>
      flat_map names bases
      ++ without (flat_map refs_stmt body) (flat_map binds_stmt body)
  | SDef _ params body =>
      without (flat_map refs_stmt body) (params ++ flat_map binds_stmt body)
  end.

Definition refs (body : list stmt) : list string := flat_map refs_stmt body.

End Scope.

(** The snippets the tokenizer and the parser read into statements, each
    with its position in [snippets].  The snippet at position 6 is among
    them although the assignment-target check rejects it; [accepted]
    below keeps only the snippets that pass every check. *)
Definition parsed : list (nat * list Py.stmt) :=
  flat_map (fun p => match Py.parse_snippet (snd p) with
                     | Some body => [(fst p, body)]
                     | None => []
                     end)
           (combine (seq 0 (List.length snippets)) snippets).

(** [flows_in ps i j x]: among the parsed snippets [ps], the one at
    position [i] binds [x] and the one at a different position [j] reads
    it. *)
Definition flows_in (ps : list (nat * list Py.stmt)) (i j : nat) (x : string)
  : Prop :=
  i <> j /\
  exists bi bj, In (i, bi) ps /\ In (j, bj) ps /\
                In x (Scope.binds bi) /\ In x (Scope.refs bj).

Definition flowsb_in (ps : list (nat * list Py.stmt)) (i j : nat) (x : string)
  : bool :=
  negb (i =? j)
  && existsb (fun p => (fst p =? i) && Py.mem x (Scope.binds (snd p))) ps
  && existsb (fun p => (fst p =? j) && Py.mem x (Scope.refs (snd p))) ps.

Definition flows : nat -> nat -> string -> Prop := flows_in parsed.

(** ** Keywords that would make a snippet more than library calls *)

Definition has_keyword (kws : list string) (snippet : list string) : bool :=
  existsb (fun t => match t with
                    | Py.Name x => Py.mem x kws
                    | _ => false
                    end)
          (Py.all_toks snippet).

Definition has_op (o : string) (snippet : list string) : bool :=
  existsb (Py.is_op o) (Py.all_toks snippet).

(** Definitions ([class], [def], [lambda]), control flow and boolean
    connectives: what a snippet needs to carry logic of its own. *)
Definition logic_keywords : list string :=
  ["class"; "def"; "lambda"; "return"; "yield";
   "if"; "elif"; "else"; "for"; "while"; "break"; "continue";
   "and"; "or"; "not"].

Definition own_logic (snippet : list string) : bool :=
  has_keyword logic_keywords snippet.

(** Catching ([try], [except], [finally], [with]), checking ([if],
    [elif], [else], [assert], [while]) and reporting ([raise], [print]). *)
Definition handling_keywords : list string :=
  ["try"; "except"; "finally"; "with"; "raise"; "assert";
   "if"; "elif"; "else"; "while"; "print"].

Definition handles_errors (snippet : list string) : bool :=
  has_keyword handling_keywords snippet.

(** ** Writes to files

    In dolfin [File(path)] opens an output file and [file << obj] writes
    [obj] to it.  [writes_from] walks a statement list, remembers which
    names hold a [File(...)], and lists every write as (path, object). *)

Module Export_.
Import Py.

Definition file_path_of (e : expr) : option expr :=
  match e with
  | ECall (EName c) [path] [] => if String.eqb c "File" then Some path else None
  | _ => None
  end.

Fixpoint lookup (x : string) (env : list (string * expr)) : option expr :=
  match env with
  | [] => None
  | (y, v) :: rest => if String.eqb x y then Some v else lookup x rest
  end.

Definition unbind (x : string) (env : list (string * expr))
  : list (string * expr) :=
  filter (fun p => negb (String.eqb x (fst p))) env.

Definition handle_path (handles : list (string * expr)) (e : expr)
  : option expr :=
  match e with
  | EName f => lookup f handles
  | other => file_path_of other
  end.

Fixpoint writes_from (handles : list (string * expr)) (body : list stmt)
  : list (expr * expr) :=
  match body with
  | [] => []
  | SAssign [EName f] v :: rest =>
      match file_path_of v with
      | Some path => writes_from ((f, path) :: handles) rest
      | None => writes_from (unbind f handles) rest
      end
  | SExpr (EBin op l r) :: rest =>
      if String.eqb op "<<" then
        match handle_path handles l with
        | Some path => (path, r) :: writes_from handles rest
        | None => writes_from handles rest
        end
      else writes_from handles rest
  | _ :: rest => writes_from handles rest
  end.

Definition file_writes (body : list stmt) : list (expr * expr) :=
  writes_from [] body.

End Export_.

(** ** Integer meaning of the arithmetic operators

    Python integers are unbounded; [^] is bitwise exclusive or and [**]
    is power.  [eval_int] gives the value of an expression built from
    integer literals, names and these operators, [None] where the value
    is not an integer or an exception is raised. *)

Module IntSem.
Import Py.
Local Open Scope Z_scope.

Definition int_of_lit (lit : string) : option Z :=
  let cs := chars lit in
  match cs with
  | [] => None
  | _ :: _ => if forallb is_digit cs then Some (Json.digits_val cs) else None
  end.

Definition unop (op : string) (a : Z) : option Z :=
  if String.eqb op "-" then Some (- a)
  else if String.eqb op "+" then Some a
  else if String.eqb op "~" then Some (Z.lnot a)
  else None.

Definition binop (op : string) (a b : Z) : option Z :=
  if String.eqb op "+" then Some (a + b)
  else if String.eqb op "-" then Some (a - b)
  else if String.eqb op "*" then Some (a * b)
  else if String.eqb op "^" then Some (Z.lxor a b)
  else if String.eqb op "&" then Some (Z.land a b)
  else if String.eqb op "|" then Some (Z.lor a b)
  else if String.eqb op "**" then (if 0 <=? b then Some (a ^ b) else None)
  else if String.eqb op "//" || String.eqb op "/" then
    (if b =? 0 then None else Some (a / b))
  else if String.eqb op "%" then
    (if b =? 0 then None else Some (a mod b))
  else None.

Fixpoint eval_int (env : string -> option Z) (e : expr) : option Z :=
  match e with
  | EName x => env x
  | ENum lit => int_of_lit lit
  | EUnary op e1 =>
      match eval_int env e1 with
      | Some a => unop op a
      | None => None
      end
  | EBin op l r =>
      match eval_int env l, eval_int env r with
      | Some a, Some b => binop op a b
      | _, _ => None
      end
  | _ => None
  end.

(** Line 62, [WeakForm = -Stiffness + k^2*MassMatrix + NeumannBC]. *)
Definition weakform_line : list tok :=
  match nth_error (scan (nth 4 snippets [])) 5 with
  | Some l => toks l
  | None => []
  end.

(** Its right-hand side. *)
Definition weakform_rhs : list tok := skipn 2 weakform_line.

(** The same tokens with [**] for [^]: the combination
    [-Stiffness + k**2*MassMatrix + NeumannBC] of the Helmholtz weak
    form. *)
Definition helmholtz_rhs : list tok :=
  map (fun t => if is_op "^" t then Op "**" else t) weakform_rhs.

(** Integer values for the four names of line 62. *)
Definition weak_env (Stiffness k MassMatrix NeumannBC : Z) (x : string)
  : option Z :=
  if String.eqb x "Stiffness" then Some Stiffness
  else if String.eqb x "k" then Some k
  else if String.eqb x "MassMatrix" then Some MassMatrix
  else if String.eqb x "NeumannBC" then Some NeumannBC
  else None.

(** The value of a right-hand side, parsed as a whole. *)
Definition value_of (ts : list tok) (Stiffness k MassMatrix NeumannBC : Z)
  : option Z :=
  match parse_whole ts with
  | Some e => eval_int (weak_env Stiffness k MassMatrix NeumannBC) e
  | None => None
  end.

(** Line 62 read with [k^2] as the coefficient of [MassMatrix], the
    exclusive or of [k] and 2. *)
Definition coefficient_reading (Stiffness k MassMatrix NeumannBC : Z) : Z :=
  - Stiffness + Z.lxor k 2 * MassMatrix + NeumannBC.

End IntSem.

(** ** The Subdomains snippet (notebook lines 104-118)

    [near], the coordinate type and the two literals are dolfin's and
    Python's; they are the section's variables.  A point is the coordinate
    array dolfin hands to [inside]; [x[0]] on an empty array raises
    IndexError, which is [None] here. *)

Module Subdomains.

Section Marking.

Variable coord : Type.
Variable zero : coord.        (* the literal 0 *)
Variable lit_1E_14 : coord.   (* the literal 1E-14 *)
Variable near : coord -> coord -> coord -> bool.

Definition point : Type := list coord.

(** [a and b] is [a] when [a] is false and the value of [b] otherwise;
    [b] is not evaluated in the first case. *)

(** class GammaN(SubDomain), lines 104-107. *)
Definition GammaN_inside (x : point) (on_boundary : bool) : option bool :=
  let tol := lit_1E_14 in
  if on_boundary then
    match nth_error x 0 with
    | Some x0 => Some (near x0 zero tol)
    | None => None
    end
  else Some on_boundary.

(** class GammaD(SubDomain), lines 109-112. *)
Definition GammaD_inside (x : point) (on_boundary : bool) : option bool :=
  let tol := lit_1E_14 in
  if on_boundary then
    match nth_error x 0 with
    | Some x0 => Some (near x0 zero tol)
    | None => None
    end
  else Some on_boundary.

(** [set_all] and [mark] are dolfin's, not the notebook's; they are given
    here as dolfin documents them.  A facet as [SubDomain.mark] sees it:
    its vertices, its midpoint, and whether it lies on the boundary of
    the mesh. *)
Record facet : Type :=
  { vertices : list point; midpoint : point; exterior : bool }.

(** [SubDomain.mark] tests the points of an entity one after the other
    and stops at the first one outside. *)
Fixpoint all_inside (inside : point -> bool -> option bool)
         (pts : list point) (on_boundary : bool) : option bool :=
  match pts with
  | [] => Some true
  | x :: rest =>
      match inside x on_boundary with
      | Some true => all_inside inside rest on_boundary
      | Some false => Some false
      | None => None
      end
  end.

Definition facet_inside (inside : point -> bool -> option bool) (f : facet)
  : option bool :=
  all_inside inside (vertices f ++ [midpoint f]) (exterior f).

(** A facet function holds one value per facet, in facet order. *)
Definition set_all (v : nat) (mf : list nat) : list nat := map (fun _ => v) mf.

(** [subdomain.mark(mf, v)]: the value of every facet inside the
    subdomain becomes [v]; the others keep theirs. *)
Fixpoint mark (inside : point -> bool -> option bool)
         (mesh : list facet) (mf : list nat) (v : nat) : option (list nat) :=
  match mesh, mf with
  | f :: mesh', m :: mf' =>
      match facet_inside inside f with
      | Some b => option_map (cons (if b then v else m)) (mark inside mesh' mf' v)
      | None => None
      end
  | _, _ => Some mf
  end.

(** Lines 116-118, on the freshly made facet function of line 115. *)
Definition marking_sequence (mesh : list facet) (boundary_markers : list nat)
  : option (list nat) :=
  let bm := set_all 0 boundary_markers in
  match mark GammaD_inside mesh bm 1 with
  | Some bm1 => mark GammaN_inside mesh bm1 2
  | None => None
  end.

(** The facets a subdomain selects. *)
Definition selects (inside : point -> bool -> option bool) (f : facet) : bool :=
  match facet_inside inside f with
  | Some true => true
  | _ => false
  end.

Definition region (inside : point -> bool -> option bool) (mesh : list facet)
  : list facet :=
  filter (selects inside) mesh.

(** Every point of the facet has a first coordinate. *)
Definition has_coordinates (f : facet) : Prop :=
  Forall (fun x : point => x <> []) (vertices f ++ [midpoint f]).

End Marking.

Arguments vertices {coord} _.
Arguments midpoint {coord} _.
Arguments exterior {coord} _.
Arguments all_inside {coord} _ _ _.
Arguments facet_inside {coord} _ _.
Arguments mark {coord} _ _ _ _.
Arguments selects {coord} _ _.
Arguments region {coord} _ _.
Arguments has_coordinates {coord} _.

End Subdomains.

(** ** Running the [inside] method as parsed

    A small evaluator for the statements and expressions the method uses:
    assignment of a literal to a local name, [return], the short-circuit
    [and] on booleans, indexing an array with a literal, and a call of
    dolfin's [near].  [literal] gives each numeric literal its value.
    Anything else, and an index out of range, is [None]. *)

Module Interp.
Import Py.

Section Eval.

Variable coord : Type.
Variable literal : string -> coord.
Variable near : coord -> coord -> coord -> bool.

Inductive value : Type :=
| VBool (b : bool)
| VNum (c : coord)
| VArr (xs : list coord)
| VSelf.

Fixpoint lookup (x : string) (env : list (string * value)) : option value :=
  match env with
  | [] => None
  | (y, v) :: rest => if String.eqb x y then Some v else lookup x rest
  end.

Fixpoint eval (env : list (string * value)) (e : expr) : option value :=
  match e with
  | EName x => lookup x env
  | ENum lit => Some (VNum (literal lit))
  | ESubscript a (ENum i) =>
      match eval env a, IntSem.int_of_lit i with
      | Some (VArr xs), Some n => option_map VNum (nth_error xs (Z.to_nat n))
      | _, _ => None
      end
  | EBin op l r =>
      if String.eqb op "and" then
        match eval env l with
        | Some (VBool false) => Some (VBool false)
        | Some (VBool true) => eval env r
        | _ => None
        end
      else None
  | ECall (EName f) [a; b; c] [] =>
      if String.eqb f "near" then
        match eval env a, eval env b, eval env c with
        | Some (VNum x), Some (VNum x0), Some (VNum eps) =>
            Some (VBool (near x x0 eps))
        | _, _, _ => None
        end
      else None
  | _ => None
  end.

Fixpoint exec (env : list (string * value)) (body : list stmt) : option value :=
  match body with
  | SAssign [EName x] e :: rest =>
      match eval env e with
      | Some v => exec ((x, v) :: env) rest
      | None => None
      end
  | SReturn e :: _ => eval env e
  | _ => None
  end.

Definition call (def : stmt) (args : list value) : option value :=
  match def with
  | SDef _ params body =>
      if List.length params =? List.length args
      then exec (combine params args) body
      else None
  | _ => None
  end.

End Eval.

Arguments VBool {coord} _.
Arguments VNum {coord} _.
Arguments VArr {coord} _.
Arguments VSelf {coord}.

End Interp.

(** ** The Solving and plotting snippet (notebook lines 130-133)

    Each library operation either returns an object or raises; the
    snippet runs them one after the other, with nothing around them. *)

Module Solving.

Inductive outcome (A E : Type) : Type :=
| Returns (a : A)
| Raises (e : E).

Arguments Returns {A E} _.
Arguments Raises {A E} _.

Definition bind {A B E : Type} (m : outcome A E) (k : A -> outcome B E)
  : outcome B E :=
  match m with
  | Returns a => k a
  | Raises e => Raises e
  end.

Notation "x <- m ;; k" := (bind m (fun x => k))
  (at level 61, m at next level, right associativity).

(** The dolfin operations the snippet calls. *)
Record library (obj exn : Type) : Type :=
  { form_eq : obj -> obj -> outcome obj exn;        (* [a == b] on forms *)
    solve : obj -> obj -> obj -> outcome obj exn;
    File : string -> outcome obj exn;
    lshift : obj -> obj -> outcome obj exn;          (* [file << u] *)
    plot : obj -> outcome obj exn }.

Arguments form_eq {obj exn} _ _ _.
Arguments solve {obj exn} _ _ _ _.
Arguments File {obj exn} _ _.
Arguments lshift {obj exn} _ _ _.
Arguments plot {obj exn} _ _.

Section Snippet.

Variables obj exn : Type.
Variable dolfin : library obj exn.
Variables WeakForm forcingFcn u bc : obj.

Definition solving_and_plotting : outcome obj exn :=
  equation <- form_eq dolfin WeakForm forcingFcn ;;
  _ <- solve dolfin equation u bc ;;
  file <- File dolfin "u.pvd" ;;
  _ <- lshift dolfin file u ;;
  plot dolfin u.

(** [e] is raised by one of the five operations, all the operations
    before it having returned. *)
Definition raised_by_library (e : exn) : Prop :=
  form_eq dolfin WeakForm forcingFcn = Raises e
  \/ (exists equation,
        form_eq dolfin WeakForm forcingFcn = Returns equation
        /\ (solve dolfin equation u bc = Raises e
            \/ exists solved,
                 solve dolfin equation u bc = Returns solved
                 /\ (File dolfin "u.pvd" = Raises e
                     \/ exists file,
                          File dolfin "u.pvd" = Returns file
                          /\ (lshift dolfin file u = Raises e
                              \/ exists written,
                                   lshift dolfin file u = Returns written
                                   /\ plot dolfin u = Raises e)))).

End Snippet.

End Solving.

(** ** A concrete mesh: the unit square over the rationals *)

Module UnitSquare.
Import Subdomains.
Local Open Scope Q_scope.

(** dolfin's [near(x, x0, eps)]: [x0 - eps <= x <= x0 + eps]. *)
Definition near (x x0 eps : Q) : bool :=
  Qle_bool (x0 - eps) x && Qle_bool x (x0 + eps).

Definition tol : Q := 1 # 100000000000000.

Definition edge (a b m : Q * Q) (ext : bool) : facet Q :=
  {| vertices := [[fst a; snd a]; [fst b; snd b]];
     midpoint := [fst m; snd m];
     exterior := ext |}.

(** Left, bottom, right and top edge, and the diagonal inside. *)
Definition mesh : list (facet Q) :=
  [ edge (0, 0) (0, 1) (0, 1 # 2) true;
    edge (0, 0) (1, 0) (1 # 2, 0) true;
    edge (1, 0) (1, 1) (1, 1 # 2) true;
    edge (0, 1) (1, 1) (1 # 2, 1) true;
    edge (0, 0) (1, 1) (1 # 2, 1 # 2) false ].

Definition inside_N := GammaN_inside Q 0 tol near.
Definition inside_D := GammaD_inside Q 0 tol near.

Definition left_edge : facet Q := edge (0, 0) (0, 1) (0, 1 # 2) true.

End UnitSquare.

(** A library whose solver fails, for the Solving snippet. *)
Module FailingSolver.
Import Solving.

Definition dolfin : library nat string :=
  {| form_eq := fun a b => Returns (a + b)%nat;
     solve := fun _ _ _ => Raises "singular system";
     File := fun _ => Returns 0%nat;
     lshift := fun _ _ => Returns 0%nat;
     plot := fun _ => Returns 0%nat |}.

End FailingSolver.

(** ** The claims of the notebook's description, as propositions *)

(** The snippets with their positions. *)
Definition indexed {A : Type} (l : list A) : list (nat * A) :=
  combine (seq 0 (List.length l)) l.

(** No snippet carries logic of its own. *)
Definition only_library_calls : Prop :=
  Forall (fun s => own_logic s = false) snippets.

(** No name goes from one snippet to another. *)
Definition no_data_flow : Prop := forall i j x, ~ flows i j x.

(** No snippet writes an object to a file. *)
Definition never_persisted : Prop :=
  Forall (fun p => Export_.file_writes (snd p) = []) parsed.

(** The method both subdomain classes define, lines 105-107 and 110-112. *)
Definition inside_def : Py.stmt :=
  Py.SDef "inside" ["self"; "x"; "on_boundary"]
    [Py.SAssign [Py.EName "tol"] (Py.ENum "1E-14");
     Py.SReturn
       (Py.EBin "and" (Py.EName "on_boundary")
          (Py.ECall (Py.EName "near")
             [Py.ESubscript (Py.EName "x") (Py.ENum "0");
              Py.ENum "0"; Py.EName "tol"] []))].

Definition is_definition (st : Py.stmt) : bool :=
  match st with
  | Py.SClass _ _ _ | Py.SDef _ _ _ => true
  | _ => false
  end.

(** ** Definitions expanded in place

    [subst env e] replaces every name [env] binds by the expression bound
    to it; [expand] walks assignments in order, binding each name to the
    expanded right-hand side, so that what a name stands for at the end is
    written with the names the snippet does not bind itself. *)

Module Dataflow.
Import Py.

Fixpoint lookup (x : string) (env : list (string * expr)) : option expr :=
  match env with
  | [] => None
  | (y, v) :: rest => if String.eqb x y then Some v else lookup x rest
  end.

Fixpoint subst (env : list (string * expr)) (e : expr) : expr :=
  match e with
  | EName x => match lookup x env with Some v => v | None => e end
  | ENum _ | EStr _ => e
  | ETuple es => ETuple (map (subst env) es)
  | EUnary op a => EUnary op (subst env a)
  | EBin op l r => EBin op (subst env l) (subst env r)
  | ECall f args kwargs =>
      ECall (subst env f) (map (subst env) args)
            (map (fun kv => (fst kv, subst env (snd kv))) kwargs)
  | ESubscript a i => ESubscript (subst env a) (subst env i)
  | EAttr a attr => EAttr (subst env a) attr
  end.

Fixpoint expand (env : list (string * expr)) (body : list stmt)
  : list (string * expr) :=
  match body with
  | [] => env
  | SAssign [EName x] v :: rest => expand ((x, subst env v) :: env) rest
  | _ :: rest => expand env rest
  end.

(** The function names an expression calls. *)
Fixpoint callees (e : expr) : list string :=
  match e with
  | EName _ | ENum _ | EStr _ => []
  | ETuple es => flat_map callees es
  | EUnary _ a => callees a
  | EBin _ l r => callees l ++ callees r
  | ECall f args kwargs =>
      match f with EName g => [g] | other => callees other end
      ++ flat_map callees args
      ++ flat_map (fun kv => callees (snd kv)) kwargs
  | ESubscript a i => callees a ++ callees i
  | EAttr a _ => callees a
  end.

(** The leftmost factor of a product. *)
Fixpoint leftmost_factor (e : expr) : expr :=
  match e with
  | EBin op l r => if String.eqb op "*" then leftmost_factor l else e
  | _ => e
  end.

Definition assigned_value (st : stmt) : option expr :=
  match st with
  | SAssign _ v => Some v
  | _ => None
  end.

End Dataflow.

(** The Nonlinear Elasticity snippet, lines 89-94. *)
Definition nonlinear_snippet : list Py.stmt :=
  match Py.parse_snippet (nth 7 snippets []) with
  | Some body => body
  | None => []
  end.

(** Lines 58-61, the four forms that start with [1/rho]. *)
Definition rho_forms : list Py.stmt :=
  match Py.parse_snippet (nth 4 snippets []) with
  | Some body => firstn 4 (skipn 1 body)
  | None => []
  end.

Definition rho_env (rho : Z) (x : string) : option Z :=
  if String.eqb x "rho" then Some rho else None.

(** Every token of every snippet, in notebook order. *)
Definition notebook_toks : list Py.tok := flat_map Py.all_toks snippets.

Definition count_tok (t : Py.tok) (ts : list Py.tok) : nat :=
  List.length (filter (Py.tok_eqb t) ts).

(** Every name bound, and every name read, by a snippet that parses. *)
Definition all_binds : list string :=
  flat_map (fun p => Scope.binds (snd p)) parsed.
Definition all_refs : list string :=
  flat_map (fun p => Scope.refs (snd p)) parsed.

(** A member of a member of ... of a JSON object. *)
Fixpoint json_path (ks : list string) (v : Json.value) : option Json.value :=
  match ks with
  | [] => Some v
  | k :: rest =>
      match Json.get k v with
      | Some v' => json_path rest v'
      | None => None
      end
  end.

Definition notebook_at (ks : list string) : option Json.value :=
  match notebook_json with
  | Some v => json_path ks v
  | None => None
  end.

(** ** Which facets a subdomain selects, as one list

    [None] when testing some facet raises. *)
Fixpoint selection {coord : Type}
         (inside : Subdomains.point coord -> bool -> option bool)
         (mesh : list (Subdomains.facet coord)) : option (list bool) :=
  match mesh with
  | [] => Some []
  | f :: rest =>
      match Subdomains.facet_inside inside f with
      | Some b => option_map (cons b) (selection inside rest)
      | None => None
      end
  end.

Definition apply_marks (v : nat) (bs : list bool) (mf : list nat) : list nat :=
  map (fun bm : bool * nat => if fst bm then v else snd bm) (combine bs mf).

(** A mesh whose only facet is exterior and has a vertex without
    coordinates. *)
Module Degenerate.
Import Subdomains.

Definition mesh : list (facet Q) :=
  [ {| vertices := [[]]; midpoint := [0%Q; 0%Q]; exterior := true |} ].

End Degenerate.

(** The Pressure acoustics snippet, lines 57-62. *)
Definition pressure_snippet : list Py.stmt :=
  match Py.parse_snippet (nth 4 snippets []) with
  | Some body => body
  | None => []
  end.

(** [1/rho]. *)
Definition one_over_rho : Py.expr :=
  Py.EBin "/" (Py.ENum "1") (Py.EName "rho").

(** A code cell with no source, no outputs and no execution count. *)
Definition blank_code_cell (c : Json.value) : bool :=
  match Json.get "source" c, Json.get "outputs" c,
        Json.get "execution_count" c with
  | Some (Json.Arr []), Some (Json.Arr []), Some Json.Null => true
  | _, _, _ => false
  end.

Definition is_markdown_cell (c : Json.value) : bool :=
  match Json.get "cell_type" c with
  | Some (Json.Str t) => String.eqb t "markdown"
  | _ => false
  end.

Definition is_code_cell (c : Json.value) : bool :=
  match Json.get "cell_type" c with
  | Some (Json.Str t) => String.eqb t "code"
  | _ => false
  end.

Definition notebook_cells_json : list Json.value :=
  match notebook_at ["cells"] with
  | Some (Json.Arr cs) => cs
  | _ => []
  end.

(** ** The snippets read in notebook order

    The statements of the parsed snippets placed before position [pos],
    one after the other, and what each name stands for after them, later
    bindings replacing earlier ones. *)
Definition program_before (pos : nat) : list Py.stmt :=
  flat_map (fun p => if fst p <? pos then snd p else []) parsed.

Definition bindings_before (pos : nat) : list (string * Py.expr) :=
  Dataflow.expand [] (program_before pos).

(** [Mesh('mesh.xml')], and the two function spaces built on it. *)
Definition the_mesh : Py.expr :=
  Py.ECall (Py.EName "Mesh") [Py.EStr "mesh.xml"] [].
Definition scalar_space : Py.expr :=
  Py.ECall (Py.EName "FunctionSpace") [the_mesh; Py.EStr "CG"; Py.ENum "2"] [].
Definition vector_space : Py.expr :=
  Py.ECall (Py.EName "VectorFunctionSpace")
    [the_mesh; Py.EStr "CG"; Py.ENum "2"] [].

(** The pressure trial and test functions of lines 33-34, the facet
    normal of line 57 and the forms of lines 59-62, names expanded. *)
Definition trial_p : Py.expr :=
  Py.ECall (Py.EName "TrialFunction") [scalar_space] [].
Definition test_dp : Py.expr :=
  Py.ECall (Py.EName "TestFunction") [scalar_space] [].
Definition facet_normal : Py.expr :=
  Py.ECall (Py.EName "FacetNormal") [the_mesh] [].
Definition mass_form : Py.expr :=
  Py.EBin "*" (Py.EBin "*" (Py.EBin "*" one_over_rho trial_p) test_dp)
    (Py.EName "dx").
Definition neumann_form : Py.expr :=
  Py.EBin "*"
    (Py.EBin "*" (Py.EBin "*" one_over_rho test_dp)
       (Py.ECall (Py.EName "dot") [trial_p; facet_normal] []))
    (Py.EName "ds").
Definition forcing_form : Py.expr :=
  Py.EBin "*" (Py.EBin "*" (Py.EBin "*" one_over_rho test_dp) (Py.EName "f"))
    (Py.EName "dx").
Definition pressure_form : Py.expr :=
  Py.EBin "^"
    (Py.EBin "+" (Py.EUnary "-" (Py.EName "Stiffness")) (Py.EName "k"))
    (Py.EBin "+" (Py.EBin "*" (Py.ENum "2") mass_form) neumann_form).

(** ** The snippets Python accepts *)

(** The snippets that pass the tokenizer, the parser and the
    assignment-target check, each with its position. *)
Definition accepted : list (nat * list Py.stmt) :=
  flat_map (fun p => match Py.syntax_check (snd p), Py.parse_snippet (snd p) with
                     | None, Some body => [(fst p, body)]
                     | _, _ => []
                     end)
           (indexed snippets).

(** The modules a statement list imports with a star. *)
Definition star_modules (body : list Py.stmt) : list string :=
  flat_map (fun st => match st with
                      | Py.SImportStar m => [m]
                      | _ => []
                      end) body.

(** [binds_name exports body x]: [body] binds [x], by writing it or by a
    star import of a module [m] with [exports m x].  What dolfin exports
    is not in the notebook; [exports] stands for it. *)
Definition binds_name (exports : string -> string -> bool)
           (body : list Py.stmt) (x : string) : bool :=
  Py.mem x (Scope.binds body) || existsb (fun m => exports m x) (star_modules body).

(** [flows_star_in ps exports i j x]: among [ps] the snippet at position
    [i] binds [x], star imports included, and the snippet at a different
    position [j] reads it. *)
Definition flows_star_in (ps : list (nat * list Py.stmt))
           (exports : string -> string -> bool) (i j : nat) (x : string)
  : Prop :=
  i <> j /\
  exists bi bj, In (i, bi) ps /\ In (j, bj) ps /\
                binds_name exports bi x = true /\ In x (Scope.refs bj).

(** The names the snippet at position [j] reads. *)
Definition reads_in (ps : list (nat * list Py.stmt)) (j : nat) : list string :=
  flat_map (fun p => if fst p =? j then Scope.refs (snd p) else []) ps.

(** Some snippet at another position than [j] binds [x]. *)
Definition bound_elsewhere_in (ps : list (nat * list Py.stmt))
           (exports : string -> string -> bool) (j : nat) (x : string) : bool :=
  existsb (fun p => negb (fst p =? j) && binds_name exports (snd p) x) ps.

Definition flows_star : (string -> string -> bool) -> nat -> nat -> string -> Prop :=
  flows_star_in accepted.

(** A table of exports in which dolfin has [Mesh]. *)
Definition exports_with_Mesh (m x : string) : bool :=
  String.eqb m "dolfin" && String.eqb x "Mesh".

(** ** The strain and the energy of lines 89-92, names expanded *)

(** [grad(u)+I], the [F] of line 89. *)
Definition deformation_expr : Py.expr :=
  Py.EBin "+" (Py.ECall (Py.EName "grad") [Py.EName "u"] []) (Py.EName "I").

(** [0.5*(F.T*F-I)], the [E] of line 91. *)
Definition strain_expr : Py.expr :=
  Py.EBin "*" (Py.ENum "0.5")
    (Py.EBin "-"
       (Py.EBin "*" (Py.EAttr deformation_expr "T") deformation_expr)
       (Py.EName "I")).

(** [lmbda/2*tr(e)**2+mu*tr(e*e)], the [W] of line 92 on a strain [e]. *)
Definition energy_of (e : Py.expr) : Py.expr :=
  Py.EBin "+"
    (Py.EBin "*" (Py.EBin "/" (Py.EName "lmbda") (Py.ENum "2"))
       (Py.EBin "**" (Py.ECall (Py.EName "tr") [e] []) (Py.ENum "2")))
    (Py.EBin "*" (Py.EName "mu")
       (Py.ECall (Py.EName "tr") [Py.EBin "*" e e] [])).

(** ** The accepted snippets read in notebook order *)

Definition accepted_before (pos : nat) : list Py.stmt :=
  flat_map (fun p => if fst p <? pos then snd p else []) accepted.

Definition accepted_bindings_before (pos : nat) : list (string * Py.expr) :=
  Dataflow.expand [] (accepted_before pos).

(** The call [solve(lhs == rhs, unknown, condition)] of line 130, every
    name replaced by what it stands for when the Solving snippet is
    reached: the two sides of the equation, the unknown and the boundary
    condition. *)
Definition solve_call : option (Py.expr * Py.expr * Py.expr * Py.expr) :=
  match Py.parse_snippet (nth 9 snippets []) with
  | Some (Py.SExpr (Py.ECall (Py.EName f) [Py.EBin op l r; unknown; cond] []) :: _) =>
      if String.eqb f "solve" && String.eqb op "=="
      then
        let env := accepted_bindings_before 9 in
        Some (Dataflow.subst env l, Dataflow.subst env r,
              Dataflow.subst env unknown, Dataflow.subst env cond)
      else None
  | _ => None
  end.

(** * Theorems *)

(** The notebook's text and what is read from it are closed terms; proofs
    evaluate them and never unfold them otherwise. *)
Opaque file_text notebook_json notebook_cells snippets parsed accepted.

(** ** Lists with positions *)

Lemma nth_error_combine_seq {A : Type} (l : list A) (start i : nat) (a : A) :
  nth_error l i = Some a ->
  In (start + i, a) (combine (seq start (List.length l)) l).
Proof.
  revert start i.
  induction l as [| h t IH]; intros start i H.
  - destruct i; discriminate.
  - destruct i as [| i]; simpl in *.
    + injection H as ->. left. f_equal. lia.
    + right. replace (start + S i) with (S start + i) by lia. now apply IH.
Qed.

Lemma nth_error_indexed {A : Type} (l : list A) (i : nat) (a : A) :
  nth_error l i = Some a -> In (i, a) (indexed l).
Proof. intros H. exact (nth_error_combine_seq l 0 i a H). Qed.

Lemma forallb_In {A : Type} (check : A -> bool) (l : list A) :
  forallb check l = true -> forall a, In a l -> check a = true.
Proof. intros H a Ha. rewrite forallb_forall in H. now apply H. Qed.

Lemma Forall_fails {A : Type} (P : A -> Prop) (l : list A) (a : A) :
  In a l -> ~ P a -> ~ Forall P l.
Proof. intros Ha Hn H. rewrite Forall_forall in H. exact (Hn (H a Ha)). Qed.

Lemma nth_In_ltb {A : Type} (l : list A) (n : nat) (d : A) :
  (n <? List.length l) = true -> In (nth n l d) l.
Proof. intros H. apply nth_In. now apply Nat.ltb_lt. Qed.

(** A property checked on every snippet with its position holds at every
    position. *)
Lemma by_position (check : nat * list string -> bool) :
  forallb check (indexed snippets) = true ->
  forall i s, nth_error snippets i = Some s -> check (i, s) = true.
Proof.
  intros Hall i s H.
  exact (forallb_In check _ Hall (i, s) (nth_error_indexed _ i s H)).
Qed.

Lemma mem_In (x : string) (xs : list string) :
  Py.mem x xs = true <-> In x xs.
Proof.
  unfold Py.mem. rewrite existsb_exists. split.
  - intros [y [Hy E]]. apply String.eqb_eq in E. now subst.
  - intros H. exists x. split; [assumption | apply String.eqb_refl].
Qed.

(** ** The notebook document *)

(** C7: the notebook file is a JSON text; its top level has a [cells]
    array and [nbformat] 4, and every cell has a [cell_type] and a
    [source] field. *)
Theorem C7_well_formed_notebook :
  exists (v : Json.value) (cells : list Json.value),
    Json.parse file_text = Some v
    /\ Json.get "cells" v = Some (Json.Arr cells)
    /\ Json.get "nbformat" v = Some (Json.Num 4)
    /\ Forall (fun c => (exists t, Json.get "cell_type" c = Some t)
                        /\ (exists src, Json.get "source" c = Some src))
              cells.
Proof.
  remember (Json.parse file_text) as r eqn:E.
  vm_compute in E. subst r.
  eexists. eexists.
  split; [reflexivity |].
  split; [reflexivity |].
  split; [reflexivity |].
  repeat (constructor; [split; eexists; reflexivity |]).
  constructor.
Qed.

(** The reader above yields the eight cells, seven markdown and one code. *)
Lemma notebook_cell_types :
  map cell_type notebook_cells
  = ["markdown"; "markdown"; "markdown"; "markdown"; "markdown"; "markdown";
     "markdown"; "code"].
Proof. vm_compute. reflexivity. Qed.

Lemma snippet_count : List.length snippets = 10.
Proof. vm_compute. reflexivity. Qed.

(** ** Logic authored by the notebook *)

(** The Subdomains snippet (position 8) carries logic of its own, so not
    every snippet is a bare sequence of library calls. *)
Lemma C1_counterexample :
  own_logic (nth 8 snippets []) = true /\ ~ only_library_calls.
Proof.
  split; [vm_compute; reflexivity |].
  apply (Forall_fails _ snippets (nth 8 snippets [])).
  - apply nth_In_ltb. vm_compute. reflexivity.
  - apply not_false_iff_true. vm_compute. reflexivity.
Qed.

(** C1 (amended): a snippet has definition, control-flow or boolean
    keywords exactly when it is the Subdomains snippet; that snippet
    defines the classes [GammaN] and [GammaD] over the library's
    [SubDomain], each with the one method [inside] that returns
    [on_boundary and near(x[0], 0, tol)], and nothing else in it is a
    definition. *)
Theorem C1_own_logic_only_in_subdomains :
  (forall i s, nth_error snippets i = Some s ->
               (own_logic s = true <-> i = 8))
  /\ exists rest,
       Py.parse_snippet (nth 8 snippets [])
       = Some (Py.SClass "GammaN" [Py.EName "SubDomain"] [inside_def]
               :: Py.SClass "GammaD" [Py.EName "SubDomain"] [inside_def]
               :: rest)
       /\ existsb is_definition rest = false.
Proof.
  split.
  - intros i s H.
    assert (C : Bool.eqb (own_logic s) (i =? 8) = true).
    { apply (by_position (fun p => Bool.eqb (own_logic (snd p)) (fst p =? 8)));
        [vm_compute; reflexivity | assumption]. }
    apply Bool.eqb_prop in C. rewrite C. apply Nat.eqb_eq.
  - eexists. split; [vm_compute; reflexivity | vm_compute; reflexivity].
Qed.

Lemma C1_own_logic_witness :
  own_logic (nth 8 snippets []) = true <-> 8 = 8.
Proof.
  apply (proj1 C1_own_logic_only_in_subdomains 8 (nth 8 snippets [])).
  vm_compute. reflexivity.
Defined.

(** ** Syntax of the snippets *)

(** C3: not every snippet is accepted.  What the tokenizer, the parser
    and the assignment-target check say of the ten snippets, in notebook
    order: the first block of the Linear Elasticity section (line 70) ends
    inside an open parenthesis, the second (line 76) assigns to the
    product [0.5*(...)]; the other eight pass. *)
Theorem C3_two_snippets_rejected :
  map Py.syntax_check snippets
  = [None; None; None; None; None;
     Some (Py.TokenError (Py.EofInBrackets ["("]));
     Some Py.CannotAssign;
     None; None; None].
Proof. vm_compute. reflexivity. Qed.

(** Line 76 read as a statement: two targets, the second a product. *)
Lemma line_76_targets :
  exists target value rest,
    Py.parse_snippet (nth 6 snippets [])
    = Some (Py.SAssign [Py.EName "StrainU"; target] value :: rest)
    /\ target = Py.EBin "*" (Py.ENum "0.5")
                  (Py.EBin "+"
                     (Py.ECall (Py.EName "grad") [Py.EName "u"] [])
                     (Py.ECall (Py.EName "transpose")
                        [Py.ECall (Py.EName "grad") [Py.EName "u"] []] []))
    /\ Py.valid_target target = false.
Proof.
  eexists. eexists. eexists.
  split; [vm_compute; reflexivity |].
  split; reflexivity.
Qed.

(** ** Persistence *)

(** The Solving snippet writes [u] to the file [u.pvd], and [u] is the
    trial function made in the elasticity function-space snippet. *)
Lemma C5_counterexample :
  (exists body, In (9, body) parsed
                /\ Export_.file_writes body = [(Py.EStr "u.pvd", Py.EName "u")])
  /\ (exists body, In (3, body) parsed
                   /\ In (Py.SAssign [Py.EName "u"]
                            (Py.ECall (Py.EName "TrialFunction")
                               [Py.EName "V"] [])) body)
  /\ ~ never_persisted.
Proof.
  split; [| split].
  - eexists. split.
    + vm_compute. do 8 right. left. reflexivity.
    + vm_compute. reflexivity.
  - eexists. split.
    + vm_compute. do 3 right. left. reflexivity.
    + vm_compute. right. left. reflexivity.
  - apply (Forall_fails _ parsed (nth 8 parsed (0, []))).
    + apply nth_In_ltb. vm_compute. reflexivity.
    + vm_compute. discriminate.
Qed.

(** C5 (amended): the only write to a file is in the Solving snippet
    (position 9), which writes [u] to [u.pvd]; the [<<] operator occurs in
    no other snippet and no other snippet that parses writes anything. *)
Theorem C5_only_solving_snippet_writes :
  (forall i s, nth_error snippets i = Some s ->
               (has_op "<<" s = true <-> i = 9))
  /\ (forall i body, In (i, body) parsed ->
        Export_.file_writes body
        = if i =? 9 then [(Py.EStr "u.pvd", Py.EName "u")] else []).
Proof.
  split.
  - intros i s H.
    assert (C : Bool.eqb (has_op "<<" s) (i =? 9) = true).
    { apply (by_position (fun p => Bool.eqb (has_op "<<" (snd p)) (fst p =? 9)));
        [vm_compute; reflexivity | assumption]. }
    apply Bool.eqb_prop in C. rewrite C. apply Nat.eqb_eq.
  - intros i body H.
    vm_compute in H.
    repeat (destruct H as [H | H]; [injection H as <- <-; vm_compute; reflexivity |]).
    contradiction.
Qed.

Lemma C5_only_solving_snippet_writes_witness :
  has_op "<<" (nth 9 snippets []) = true <-> 9 = 9.
Proof.
  apply (proj1 C5_only_solving_snippet_writes 9 (nth 9 snippets [])).
  vm_compute. reflexivity.
Defined.

(** ** Error handling *)

Section SolvingFacts.
Import Solving.

Variables obj exn : Type.
Variable dolfin : library obj exn.
Variables WeakForm forcingFcn u bc : obj.

(** The snippet raises exactly what a library operation raised. *)
Lemma solving_raises (e : exn) :
  solving_and_plotting obj exn dolfin WeakForm forcingFcn u bc = Raises e
  <-> raised_by_library obj exn dolfin WeakForm forcingFcn u bc e.
Proof.
  unfold solving_and_plotting, raised_by_library, bind.
  destruct (form_eq dolfin WeakForm forcingFcn) as [equation | e1] eqn:E1;
    [destruct (solve dolfin equation u bc) as [solved | e2] eqn:E2;
     [destruct (File dolfin "u.pvd") as [file | e3] eqn:E3;
      [destruct (lshift dolfin file u) as [written | e4] eqn:E4 |] |] |];
    (split;
     [ intros H;
       repeat first
         [ left; congruence
         | right; eexists; split; [first [reflexivity | eassumption] |]
         | congruence ]
     | intros H;
       repeat match goal with
              | D : _ \/ _ |- _ => destruct D
              | D : exists _, _ |- _ => destruct D
              | D : _ /\ _ |- _ => destruct D
              end;
       congruence ]).
Qed.

End SolvingFacts.

(** C6: no snippet has a keyword that catches, checks or reports a
    failure; and the Solving snippet raises [e] exactly when one of its
    library operations, reached after the earlier ones returned, raises
    [e]: the failure comes out as the library raised it. *)
Theorem C6_no_error_handling :
  Forall (fun s => handles_errors s = false) snippets
  /\ forall (obj exn : Type) (dolfin : Solving.library obj exn)
            (WeakForm forcingFcn u bc : obj) (e : exn),
       Solving.solving_and_plotting obj exn dolfin WeakForm forcingFcn u bc
       = Solving.Raises e
       <-> Solving.raised_by_library obj exn dolfin WeakForm forcingFcn u bc e.
Proof.
  split.
  - apply Forall_forall. intros s Hin.
    assert (A : forallb (fun s => negb (handles_errors s)) snippets = true)
      by (vm_compute; reflexivity).
    apply negb_true_iff.
    exact (forallb_In (fun s => negb (handles_errors s)) snippets A s Hin).
  - intros. apply solving_raises.
Qed.

(** With a solver that fails, the snippet fails with the solver's error. *)
Lemma C6_no_error_handling_witness :
  Solving.solving_and_plotting nat string FailingSolver.dolfin 1 2 3 4
  = Solving.Raises "singular system".
Proof.
  apply (proj2 C6_no_error_handling nat string FailingSolver.dolfin 1 2 3 4).
  right. exists 3. split; [reflexivity |]. left. reflexivity.
Defined.

(** ** Names between snippets *)

Section Flows.

Variable ps : list (nat * list Py.stmt).

Lemma flowsb_flows (i j : nat) (x : string) :
  flowsb_in ps i j x = true -> flows_in ps i j x.
Proof.
  unfold flowsb_in, flows_in. intros H.
  apply andb_true_iff in H. destruct H as [H Hr].
  apply andb_true_iff in H. destruct H as [Hne Hb].
  apply negb_true_iff, Nat.eqb_neq in Hne.
  apply existsb_exists in Hb. destruct Hb as [[i' bi] [Hi Hb]].
  apply existsb_exists in Hr. destruct Hr as [[j' bj] [Hj Hr]].
  simpl in *.
  apply andb_true_iff in Hb. destruct Hb as [Ei Hb].
  apply andb_true_iff in Hr. destruct Hr as [Ej Hr].
  apply Nat.eqb_eq in Ei, Ej. subst i' j'.
  split; [assumption |].
  exists bi, bj. repeat split; try assumption; now apply mem_In.
Qed.

Variable exports : string -> string -> bool.

(** A flow through a name written in a snippet is a flow. *)
Lemma written_flow (i j : nat) (x : string) :
  flowsb_in ps i j x = true -> flows_star_in ps exports i j x.
Proof.
  intros H. destruct (flowsb_flows i j x H) as [Hne [bi [bj [Hi [Hj [Hb Hr]]]]]].
  split; [assumption |].
  exists bi, bj. repeat split; try assumption.
  unfold binds_name. apply orb_true_iff. left. now apply mem_In.
Qed.

(** Something flows into [j] through [x] exactly when [j] reads [x] and
    another snippet binds it. *)
Lemma flows_into (j : nat) (x : string) :
  (exists i, flows_star_in ps exports i j x)
  <-> In x (reads_in ps j) /\ bound_elsewhere_in ps exports j x = true.
Proof.
  unfold flows_star_in, reads_in, bound_elsewhere_in.
  rewrite in_flat_map, existsb_exists. split.
  - intros [i [Hne [bi [bj [Hi [Hj [Hb Hr]]]]]]]. split.
    + exists (j, bj). split; [assumption |]. simpl. now rewrite Nat.eqb_refl.
    + exists (i, bi). split; [assumption |]. simpl.
      apply andb_true_iff. split; [| assumption].
      now apply negb_true_iff, Nat.eqb_neq.
  - intros [[[j' bj] [Hj Hx]] [[i bi] [Hi Hb]]]. simpl in *.
    destruct (j' =? j) eqn:Ej; [| contradiction].
    apply Nat.eqb_eq in Ej. subst j'.
    apply andb_true_iff in Hb. destruct Hb as [Hne Hb].
    apply negb_true_iff, Nat.eqb_neq in Hne.
    exists i. split; [assumption |].
    exists bi, bj. repeat split; assumption.
Qed.

End Flows.

(** [mesh] is bound by the mesh snippet (position 1) and read by the
    scalar function-space snippet (position 2). *)
Lemma C4_counterexample : flows 1 2 "mesh" /\ ~ no_data_flow.
Proof.
  assert (F : flows 1 2 "mesh")
    by (apply (flowsb_flows parsed); vm_compute; reflexivity).
  split; [exact F |].
  intros H. exact (H 1 2 "mesh" F).
Qed.

(** C4 (amended): names do pass between snippets.  Among the snippets
    Python accepts, whatever dolfin exports: the import snippet
    (position 0) reads no name; the mesh snippet (position 1) reads only
    [Mesh], which no snippet writes, so a name flows into it exactly when
    the star import of position 0 binds [Mesh]; every other snippet reads
    a name that a different snippet binds.  The Solving snippet
    (position 9) reads [WeakForm], [forcingFcn], [u] and [bc], each bound
    by an earlier snippet. *)
Theorem C4_names_flow_between_snippets :
  forall exports : string -> string -> bool,
    (forall j body, In (j, body) accepted ->
       ((exists i x, flows_star exports i j x)
        <-> (j <> 0 /\ (j = 1 -> exports "dolfin" "Mesh" = true))))
    /\ reads_in accepted 0 = []
    /\ reads_in accepted 1 = ["Mesh"]
    /\ (forall x, In x ["WeakForm"; "forcingFcn"; "u"; "bc"] ->
          exists i, i < 9 /\ flows_star exports i 9 x).
Proof.
  intros exports.
  assert (R0 : reads_in accepted 0 = []) by (vm_compute; reflexivity).
  assert (R1 : reads_in accepted 1 = ["Mesh"]) by (vm_compute; reflexivity).
  assert (B1 : bound_elsewhere_in accepted exports 1 "Mesh"
               = exports "dolfin" "Mesh").
  { vm_compute. destruct (exports _ _); reflexivity. }
  split; [| split; [exact R0 | split; [exact R1 |]]].
  - intros j body H.
    assert (Hj : In j (map fst accepted))
      by (apply in_map_iff; exists (j, body); split; [reflexivity | exact H]).
    clear H body. vm_compute in Hj.
    destruct Hj as [<- | [<- | Hj]].
    + split.
      * intros [i [x F]].
        assert (Hx : exists i0, flows_star_in accepted exports i0 0 x)
          by (exists i; exact F).
        apply (flows_into accepted exports 0 x) in Hx.
        destruct Hx as [Hx _]. rewrite R0 in Hx. contradiction.
      * intros [H0 _]. exfalso. apply H0. reflexivity.
    + split.
      * intros [i [x F]].
        assert (Hx : exists i0, flows_star_in accepted exports i0 1 x)
          by (exists i; exact F).
        apply (flows_into accepted exports 1 x) in Hx.
        destruct Hx as [Hx Hb]. rewrite R1 in Hx.
        destruct Hx as [<- | []].
        rewrite B1 in Hb.
        split; [discriminate | intros _; exact Hb].
      * intros [_ H1].
        assert (Hx : exists i0, flows_star_in accepted exports i0 1 "Mesh").
        { apply (flows_into accepted exports 1 "Mesh"). split.
          - rewrite R1. left. reflexivity.
          - rewrite B1. apply H1. reflexivity. }
        destruct Hx as [i F]. exists i, "Mesh". exact F.
    + repeat (destruct Hj as [<- | Hj];
              [split;
               [intros _; split; discriminate
               | intros _;
                 first [ exists 1, "mesh";
                         apply (written_flow accepted exports);
                         vm_compute; reflexivity
                       | exists 3, "u";
                         apply (written_flow accepted exports);
                         vm_compute; reflexivity ]] |]).
      contradiction.
  - intros x Hx. simpl in Hx.
    destruct Hx as [<- | [<- | [<- | [<- | []]]]];
      [exists 4 | exists 4 | exists 3 | exists 8];
      (split; [lia | apply (written_flow accepted exports);
                     vm_compute; reflexivity]).
Qed.

(** With a dolfin that exports [Mesh], a name flows into the mesh
    snippet. *)
Lemma C4_names_flow_between_snippets_witness :
  exists i x, flows_star exports_with_Mesh i 1 x.
Proof.
  apply (proj1 (C4_names_flow_between_snippets exports_with_Mesh)
           1 [Py.SAssign [Py.EName "mesh"]
                (Py.ECall (Py.EName "Mesh") [Py.EStr "mesh.xml"] [])]).
  - vm_compute. right. left. reflexivity.
  - split; [discriminate | intros _; reflexivity].
Defined.

(** ** The two subdomains *)

Section MarkingFacts.
Import Subdomains.

Variable coord : Type.
Variable zero lit_1E_14 : coord.
Variable near : coord -> coord -> coord -> bool.

Let inside_N := GammaN_inside coord zero lit_1E_14 near.
Let inside_D := GammaD_inside coord zero lit_1E_14 near.

Lemma inside_same (x : point coord) (on_boundary : bool) :
  inside_N x on_boundary = inside_D x on_boundary.
Proof. reflexivity. Qed.

Lemma inside_value (x0 : coord) (rest : list coord) (on_boundary : bool) :
  inside_N (x0 :: rest) on_boundary
  = Some (on_boundary && near x0 zero lit_1E_14).
Proof. destruct on_boundary; reflexivity. Qed.

Lemma all_inside_same (pts : list (point coord)) (b : bool) :
  all_inside inside_N pts b = all_inside inside_D pts b.
Proof.
  induction pts as [| x rest IH]; simpl; [reflexivity |].
  rewrite inside_same, IH. reflexivity.
Qed.

Lemma facet_inside_same (f : facet coord) :
  facet_inside inside_N f = facet_inside inside_D f.
Proof. apply all_inside_same. Qed.

Lemma selects_same (f : facet coord) :
  selects inside_N f = selects inside_D f.
Proof. unfold selects. now rewrite facet_inside_same. Qed.

Lemma region_same (mesh : list (facet coord)) :
  region inside_N mesh = region inside_D mesh.
Proof.
  induction mesh as [| f rest IH]; simpl; [reflexivity |].
  rewrite selects_same, IH. reflexivity.
Qed.

Lemma mark_same (mesh : list (facet coord)) (mf : list nat) (v : nat) :
  mark inside_N mesh mf v = mark inside_D mesh mf v.
Proof.
  revert mf. induction mesh as [| f rest IH]; intros mf; [reflexivity |].
  destruct mf as [| m mf']; [reflexivity |].
  simpl. rewrite facet_inside_same, IH. reflexivity.
Qed.

Lemma inside_defined (x : point coord) (b : bool) :
  x <> [] -> exists r, inside_N x b = Some r.
Proof.
  intros Hx. destruct x as [| x0 rest]; [contradiction |].
  rewrite inside_value. eauto.
Qed.

Lemma all_inside_defined (pts : list (point coord)) (b : bool) :
  Forall (fun x : point coord => x <> []) pts ->
  exists r, all_inside inside_N pts b = Some r.
Proof.
  induction 1 as [| x rest Hx _ IH]; simpl; [eauto |].
  destruct (inside_defined x b Hx) as [[|] ->]; eauto.
Qed.

Lemma facet_inside_defined (f : facet coord) :
  has_coordinates f ->
  facet_inside inside_N f = Some (selects inside_N f).
Proof.
  intros H. unfold selects.
  destruct (all_inside_defined _ (exterior f) H) as [r Hr].
  unfold facet_inside in *. rewrite Hr. destruct r; reflexivity.
Qed.

(** What [mark] leaves in the facet function, facet by facet. *)
Lemma mark_values (mesh : list (facet coord)) :
  Forall has_coordinates mesh ->
  forall (mf : list nat) (v : nat),
    List.length mf = List.length mesh ->
    mark inside_N mesh mf v
    = Some (map (fun fm => if selects inside_N (fst fm) then v else snd fm)
                (combine mesh mf)).
Proof.
  induction 1 as [| f mesh' Hf _ IH]; intros mf v Hlen.
  - destruct mf; [reflexivity | discriminate].
  - destruct mf as [| m mf']; [discriminate |].
    simpl. rewrite (facet_inside_defined f Hf).
    rewrite IH by (simpl in Hlen; lia). reflexivity.
Qed.

(** The second mark overwrites whatever the first one wrote. *)
Lemma second_mark_overwrites (mesh : list (facet coord)) :
  forall mf : list nat,
    List.length mf = List.length mesh ->
    map (fun fm => if selects inside_N (fst fm) then 2 else snd fm)
        (combine mesh
           (map (fun fm => if selects inside_N (fst fm) then 1 else snd fm)
                (combine mesh (set_all 0 mf))))
    = map (fun f => if selects inside_N f then 2 else 0) mesh.
Proof.
  induction mesh as [| f rest IH]; intros mf Hlen; [reflexivity |].
  destruct mf as [| m mf']; [discriminate |].
  simpl. rewrite IH by (simpl in Hlen; lia).
  destruct (selects inside_N f); reflexivity.
Qed.

Lemma marking_sequence_values (mesh : list (facet coord)) (mf : list nat) :
  List.length mf = List.length mesh ->
  Forall has_coordinates mesh ->
  marking_sequence coord zero lit_1E_14 near mesh mf
  = Some (map (fun f => if selects inside_N f then 2 else 0) mesh).
Proof.
  intros Hlen Hpts. unfold marking_sequence.
  fold inside_N inside_D.
  rewrite <- mark_same.
  rewrite (mark_values mesh Hpts) by (unfold set_all; now rewrite length_map).
  rewrite (mark_values mesh Hpts).
  - now rewrite second_mark_overwrites.
  - rewrite length_map, length_combine. unfold set_all.
    rewrite length_map. lia.
Qed.

End MarkingFacts.

(** C8: [GammaN.inside] and [GammaD.inside] return the same value on every
    point and every [on_boundary]; on a point with a first coordinate
    [x0] that value is [on_boundary and near(x0, 0, 1E-14)]. *)
Theorem C8_inside_predicates_equal :
  forall (coord : Type) (zero lit_1E_14 : coord)
         (near : coord -> coord -> coord -> bool),
    (forall (x : Subdomains.point coord) (on_boundary : bool),
        Subdomains.GammaN_inside coord zero lit_1E_14 near x on_boundary
        = Subdomains.GammaD_inside coord zero lit_1E_14 near x on_boundary)
    /\ (forall (x0 : coord) (rest : list coord) (on_boundary : bool),
          Subdomains.GammaN_inside coord zero lit_1E_14 near (x0 :: rest) on_boundary
          = Some (on_boundary && near x0 zero lit_1E_14)
          /\ Subdomains.GammaD_inside coord zero lit_1E_14 near (x0 :: rest) on_boundary
             = Some (on_boundary && near x0 zero lit_1E_14)).
Proof.
  intros coord zero lit near. split.
  - intros x b. apply inside_same.
  - intros x0 rest b. split.
    + apply inside_value.
    + rewrite <- (inside_same coord zero lit near). apply inside_value.
Qed.

(** The two class definitions of the notebook are the same text but for
    the class name. *)
Lemma class_bodies_identical :
  exists rest,
    option_map (map (fun st => match st with
                               | Py.SClass _ bases body => Some (bases, body)
                               | _ => None
                               end))
               (Py.parse_snippet (nth 8 snippets []))
    = Some (Some ([Py.EName "SubDomain"], [inside_def])
            :: Some ([Py.EName "SubDomain"], [inside_def]) :: rest).
Proof. eexists. vm_compute. reflexivity. Qed.

(** The method as parsed from the notebook, run on a point and a flag,
    gives what [GammaN_inside] gives. *)
Lemma inside_def_runs :
  forall (coord : Type) (literal : string -> coord)
         (near : coord -> coord -> coord -> bool)
         (x : list coord) (on_boundary : bool),
    Interp.call coord literal near inside_def
      [Interp.VSelf; Interp.VArr x; Interp.VBool on_boundary]
    = option_map Interp.VBool
        (Subdomains.GammaN_inside coord (literal "0") (literal "1E-14") near
           x on_boundary).
Proof.
  intros coord literal near x on_boundary.
  destruct on_boundary; destruct x as [| x0 rest]; reflexivity.
Qed.

(** C9: after [set_all(0)], the Dirichlet mark with 1 and the Neumann mark
    with 2, a facet the predicate selects holds 2 and any other facet
    holds 0; no facet holds 1. *)
Theorem C9_marking_sequence :
  forall (coord : Type) (zero lit_1E_14 : coord)
         (near : coord -> coord -> coord -> bool)
         (mesh : list (Subdomains.facet coord)) (boundary_markers : list nat),
    List.length boundary_markers = List.length mesh ->
    Forall Subdomains.has_coordinates mesh ->
    exists marked,
      Subdomains.marking_sequence coord zero lit_1E_14 near mesh boundary_markers
      = Some marked
      /\ List.length marked = List.length mesh
      /\ (forall i f,
            nth_error mesh i = Some f ->
            nth_error marked i
            = Some (if Subdomains.selects
                         (Subdomains.GammaN_inside coord zero lit_1E_14 near) f
                    then 2 else 0))
      /\ ~ In 1 marked.
Proof.
  intros coord zero lit near mesh mf Hlen Hpts.
  eexists. split; [now apply marking_sequence_values |].
  split; [apply length_map |].
  split.
  - intros i f Hf.
    exact (map_nth_error
             (fun f => if Subdomains.selects
                            (Subdomains.GammaN_inside coord zero lit near) f
                       then 2 else 0) i mesh Hf).
  - intros Hin. apply in_map_iff in Hin. destruct Hin as [f [Hf _]].
    destruct (Subdomains.selects _ f); discriminate.
Qed.

Lemma unit_square_has_coordinates :
  Forall Subdomains.has_coordinates UnitSquare.mesh.
Proof.
  unfold UnitSquare.mesh, Subdomains.has_coordinates.
  repeat constructor; simpl; discriminate.
Qed.

(** On the unit square only the left edge ends up marked, with 2. *)
Lemma C9_marking_sequence_witness :
  exists marked,
    Subdomains.marking_sequence Q 0%Q UnitSquare.tol UnitSquare.near
      UnitSquare.mesh [7; 7; 7; 7; 7]
    = Some marked
    /\ List.length marked = List.length UnitSquare.mesh
    /\ (forall i f,
          nth_error UnitSquare.mesh i = Some f ->
          nth_error marked i
          = Some (if Subdomains.selects UnitSquare.inside_N f then 2 else 0))
    /\ ~ In 1 marked.
Proof.
  apply (C9_marking_sequence Q 0%Q UnitSquare.tol UnitSquare.near
           UnitSquare.mesh [7; 7; 7; 7; 7]).
  - reflexivity.
  - exact unit_square_has_coordinates.
Defined.

(** C2: the regions are not different.  The Neumann and the Dirichlet
    subdomain select the same facets of every mesh, and marking with
    either gives the same facet function; on the unit square both regions
    are the left edge alone. *)
Theorem C2_regions_coincide :
  (forall (coord : Type) (zero lit_1E_14 : coord)
          (near : coord -> coord -> coord -> bool)
          (mesh : list (Subdomains.facet coord)),
      Subdomains.region (Subdomains.GammaN_inside coord zero lit_1E_14 near) mesh
      = Subdomains.region (Subdomains.GammaD_inside coord zero lit_1E_14 near) mesh
      /\ forall (mf : list nat) (v : nat),
           Subdomains.mark (Subdomains.GammaN_inside coord zero lit_1E_14 near) mesh mf v
           = Subdomains.mark (Subdomains.GammaD_inside coord zero lit_1E_14 near) mesh mf v)
  /\ Subdomains.region UnitSquare.inside_N UnitSquare.mesh = [UnitSquare.left_edge]
  /\ Subdomains.region UnitSquare.inside_D UnitSquare.mesh = [UnitSquare.left_edge].
Proof.
  split; [| split].
  - intros coord zero lit near mesh. split.
    + apply region_same.
    + intros mf v. apply mark_same.
  - vm_compute. reflexivity.
  - vm_compute. reflexivity.
Qed.

(** ** The coefficient [k^2] *)

(** Exclusive or with 2 flips the second bit: it adds or subtracts 2. *)
Lemma lxor_2_cases (k : Z) :
  (0 <= k)%Z ->
  (Z.lxor k 2 = k + 2 /\ k <> 2)%Z \/ (Z.lxor k 2 = k - 2)%Z.
Proof.
  intros Hk.
  destruct k as [| p | p]; [left; split; [reflexivity | discriminate] | | lia].
  destruct p as [[p | p |] | [p | p |] |]; simpl;
    try (right; lia); try (left; split; [lia | lia]).
Qed.

Lemma lxor_2_not_square (k : Z) : (0 <= k)%Z -> Z.lxor k 2 <> (k ^ 2)%Z.
Proof.
  intros Hk E.
  destruct (lxor_2_cases k Hk) as [[H Hne] | H]; rewrite H in E; nia.
Qed.

(** Line 62 as Python groups it: [^] binds less tightly than [+] and [*],
    so the whole right-hand side is one exclusive or. *)
Lemma weakform_grouping :
  Py.parse_whole (skipn 2 IntSem.weakform_line)
  = Some (Py.EBin "^"
            (Py.EBin "+" (Py.EUnary "-" (Py.EName "Stiffness")) (Py.EName "k"))
            (Py.EBin "+"
               (Py.EBin "*" (Py.ENum "2") (Py.EName "MassMatrix"))
               (Py.EName "NeumannBC"))).
Proof. vm_compute. reflexivity. Qed.

(** Read as the whole it is, line 62 at [Stiffness = 0], [k = 1],
    [MassMatrix = 2], [NeumannBC = 0] is [1 ^ 4 = 5]; read with [k^2] as
    the coefficient of [MassMatrix] it would be [(1 xor 2) * 2 = 6]. *)
Lemma C10_counterexample :
  IntSem.value_of IntSem.weakform_rhs 0 1 2 0 = Some 5%Z
  /\ IntSem.coefficient_reading 0 1 2 0 = 6%Z
  /\ ~ (forall Stiffness k MassMatrix NeumannBC : Z,
          IntSem.value_of IntSem.weakform_rhs Stiffness k MassMatrix NeumannBC
          = Some (IntSem.coefficient_reading Stiffness k MassMatrix NeumannBC)).
Proof.
  assert (A : IntSem.value_of IntSem.weakform_rhs 0 1 2 0 = Some 5%Z)
    by (vm_compute; reflexivity).
  split; [exact A |]. split; [reflexivity |].
  intros H. specialize (H 0 1 2 0)%Z. rewrite A in H. discriminate.
Qed.

Lemma weakform_rhs_value (Stiffness k MassMatrix NeumannBC : Z) :
  IntSem.value_of IntSem.weakform_rhs Stiffness k MassMatrix NeumannBC
  = Some (Z.lxor (- Stiffness + k) (2 * MassMatrix + NeumannBC)).
Proof.
  unfold IntSem.value_of, IntSem.weakform_rhs.
  rewrite weakform_grouping. reflexivity.
Qed.

Lemma helmholtz_rhs_parse :
  Py.parse_whole IntSem.helmholtz_rhs
  = Some (Py.EBin "+"
            (Py.EBin "+" (Py.EUnary "-" (Py.EName "Stiffness"))
               (Py.EBin "*" (Py.EBin "**" (Py.EName "k") (Py.ENum "2"))
                  (Py.EName "MassMatrix")))
            (Py.EName "NeumannBC")).
Proof. vm_compute. reflexivity. Qed.

Lemma helmholtz_rhs_value (Stiffness k MassMatrix NeumannBC : Z) :
  IntSem.value_of IntSem.helmholtz_rhs Stiffness k MassMatrix NeumannBC
  = Some (- Stiffness + k ^ 2 * MassMatrix + NeumannBC)%Z.
Proof.
  unfold IntSem.value_of. rewrite helmholtz_rhs_parse. reflexivity.
Qed.

(** C10 (amended): on line 62 the caret is exclusive or and binds less
    tightly than [+] and [*]: on integers the right-hand side is the
    exclusive or of [-Stiffness + k] and [2*MassMatrix + NeumannBC], the
    factor on [MassMatrix] being 2.  It is not the Helmholtz combination
    [-Stiffness + k**2*MassMatrix + NeumannBC]: for every [k >= 0] the
    two differ at [Stiffness = 0], [MassMatrix = 1], [NeumannBC = 0],
    where the line gives [k xor 2] and the combination gives [k**2]. *)
Theorem C10_caret_is_not_power :
  (forall Stiffness k MassMatrix NeumannBC : Z,
      IntSem.value_of IntSem.weakform_rhs Stiffness k MassMatrix NeumannBC
      = Some (Z.lxor (- Stiffness + k) (2 * MassMatrix + NeumannBC))
      /\ IntSem.value_of IntSem.helmholtz_rhs Stiffness k MassMatrix NeumannBC
         = Some (- Stiffness + k ^ 2 * MassMatrix + NeumannBC)%Z)
  /\ forall k : Z,
       (0 <= k)%Z ->
       IntSem.value_of IntSem.weakform_rhs 0 k 1 0 = Some (Z.lxor k 2)
       /\ IntSem.value_of IntSem.helmholtz_rhs 0 k 1 0 = Some (k ^ 2)%Z
       /\ IntSem.value_of IntSem.weakform_rhs 0 k 1 0
          <> IntSem.value_of IntSem.helmholtz_rhs 0 k 1 0.
Proof.
  split.
  - intros S k M N. split; [apply weakform_rhs_value | apply helmholtz_rhs_value].
  - intros k Hk.
    assert (A : IntSem.value_of IntSem.weakform_rhs 0 k 1 0 = Some (Z.lxor k 2)).
    { rewrite weakform_rhs_value. f_equal. }
    assert (B : IntSem.value_of IntSem.helmholtz_rhs 0 k 1 0 = Some (k ^ 2)%Z).
    { rewrite helmholtz_rhs_value. f_equal. lia. }
    split; [exact A |]. split; [exact B |].
    rewrite A, B. intros E. injection E as E.
    exact (lxor_2_not_square k Hk E).
Qed.

Lemma C10_caret_is_not_power_witness :
  IntSem.value_of IntSem.weakform_rhs 0 3 1 0 = Some (Z.lxor 3 2)
  /\ IntSem.value_of IntSem.helmholtz_rhs 0 3 1 0 = Some (3 ^ 2)%Z
  /\ IntSem.value_of IntSem.weakform_rhs 0 3 1 0
     <> IntSem.value_of IntSem.helmholtz_rhs 0 3 1 0.
Proof. apply (proj2 C10_caret_is_not_power 3%Z). lia. Defined.

(** * Further properties of the snippets *)

(** ** The [inside] predicates, lines 104-112 *)

(** [inside] raises (IndexError) exactly on a point without coordinates
    tested with [on_boundary] true; with [on_boundary] false it returns
    False whatever the point, without looking at it. *)
Theorem inside_raises_only_on_empty_boundary_point :
  forall (coord : Type) (zero lit_1E_14 : coord)
         (near : coord -> coord -> coord -> bool)
         (x : Subdomains.point coord) (on_boundary : bool),
    (Subdomains.GammaN_inside coord zero lit_1E_14 near x on_boundary = None
     <-> on_boundary = true /\ x = [])
    /\ (Subdomains.GammaD_inside coord zero lit_1E_14 near x on_boundary = None
        <-> on_boundary = true /\ x = [])
    /\ Subdomains.GammaN_inside coord zero lit_1E_14 near x false = Some false
    /\ Subdomains.GammaD_inside coord zero lit_1E_14 near x false = Some false.
Proof.
  intros coord zero lit near x b.
  assert (A : Subdomains.GammaN_inside coord zero lit near x b = None
              <-> b = true /\ x = []).
  { destruct b, x as [| x0 rest]; simpl; split;
      try discriminate; try tauto;
      intros [H1 H2]; discriminate. }
  split; [exact A | split; [exact A | split; reflexivity]].
Qed.

(** [inside] looks at the first coordinate only: two points with the same
    first coordinate get the same answer. *)
Theorem inside_reads_first_coordinate :
  forall (coord : Type) (zero lit_1E_14 : coord)
         (near : coord -> coord -> coord -> bool)
         (x y : Subdomains.point coord) (on_boundary : bool),
    nth_error x 0 = nth_error y 0 ->
    Subdomains.GammaN_inside coord zero lit_1E_14 near x on_boundary
    = Subdomains.GammaN_inside coord zero lit_1E_14 near y on_boundary
    /\ Subdomains.GammaD_inside coord zero lit_1E_14 near x on_boundary
       = Subdomains.GammaD_inside coord zero lit_1E_14 near y on_boundary.
Proof.
  intros coord zero lit near x y b H.
  unfold Subdomains.GammaN_inside, Subdomains.GammaD_inside.
  rewrite H. split; reflexivity.
Qed.

Lemma inside_reads_first_coordinate_witness :
  UnitSquare.inside_N [0%Q; (1 # 2)%Q] true = UnitSquare.inside_N [0%Q; 7%Q] true
  /\ UnitSquare.inside_D [0%Q; (1 # 2)%Q] true = UnitSquare.inside_D [0%Q; 7%Q] true.
Proof.
  apply (inside_reads_first_coordinate Q 0%Q UnitSquare.tol UnitSquare.near
           [0%Q; (1 # 2)%Q] [0%Q; 7%Q] true).
  reflexivity.
Defined.

(** ** The marking sequence, lines 115-118 *)

Section SelectionFacts.
Import Subdomains.

Variable coord : Type.

Lemma selection_length (inside : point coord -> bool -> option bool)
      (mesh : list (facet coord)) :
  forall bs, selection inside mesh = Some bs ->
             List.length bs = List.length mesh.
Proof.
  induction mesh as [| f rest IH]; simpl; intros bs H.
  - injection H as <-. reflexivity.
  - destruct (facet_inside inside f) as [b |]; [| discriminate].
    destruct (selection inside rest) as [bs' |]; [| discriminate].
    injection H as <-. simpl. f_equal. now apply IH.
Qed.

Lemma selection_nth (inside : point coord -> bool -> option bool)
      (mesh : list (facet coord)) :
  forall bs i f,
    selection inside mesh = Some bs ->
    nth_error mesh i = Some f ->
    exists b, nth_error bs i = Some b /\ facet_inside inside f = Some b.
Proof.
  induction mesh as [| g rest IH]; simpl; intros bs i f H Hf.
  - destruct i; discriminate.
  - destruct (facet_inside inside g) as [b |] eqn:Eg; [| discriminate].
    destruct (selection inside rest) as [bs' |] eqn:Es; [| discriminate].
    injection H as <-.
    destruct i as [| i]; simpl in *.
    + injection Hf as <-. exists b. split; [reflexivity | assumption].
    + now apply IH.
Qed.

Lemma selection_fails (inside : point coord -> bool -> option bool)
      (mesh : list (facet coord)) :
  selection inside mesh = None ->
  exists f, In f mesh /\ facet_inside inside f = None.
Proof.
  induction mesh as [| g rest IH]; simpl; [discriminate |].
  destruct (facet_inside inside g) as [b |] eqn:Eg.
  - destruct (selection inside rest) as [bs' |]; [discriminate |].
    intros _. destruct (IH eq_refl) as [f [Hin Hf]].
    exists f. split; [right |]; assumption.
  - intros _. exists g. split; [left; reflexivity | assumption].
Qed.

(** [mark] is the selection applied to the facet function. *)
Lemma mark_by_selection (inside : point coord -> bool -> option bool)
      (mesh : list (facet coord)) :
  forall (mf : list nat) (v : nat),
    List.length mf = List.length mesh ->
    mark inside mesh mf v
    = option_map (fun bs => apply_marks v bs mf) (selection inside mesh).
Proof.
  induction mesh as [| f rest IH]; intros mf v Hlen.
  - destruct mf; [reflexivity | discriminate].
  - destruct mf as [| m mf']; [discriminate |].
    simpl. destruct (facet_inside inside f) as [b |]; [| reflexivity].
    rewrite IH by (simpl in Hlen; lia).
    destruct (selection inside rest); reflexivity.
Qed.

Lemma apply_marks_length (v : nat) :
  forall (bs : list bool) (mf : list nat),
    List.length bs = List.length mf ->
    List.length (apply_marks v bs mf) = List.length mf.
Proof.
  intros bs mf H. unfold apply_marks.
  rewrite length_map, length_combine. lia.
Qed.

Lemma apply_marks_twice (v w : nat) :
  forall (bs : list bool) (mf : list nat),
    apply_marks w bs (apply_marks v bs mf) = apply_marks w bs mf.
Proof.
  induction bs as [| b bs IH]; intros mf; [reflexivity |].
  destruct mf as [| m mf']; [reflexivity |].
  unfold apply_marks in *. simpl. rewrite IH.
  destruct b; reflexivity.
Qed.

Lemma apply_marks_after_reset (v : nat) :
  forall (bs : list bool) (mf : list nat),
    List.length bs = List.length mf ->
    apply_marks v bs (set_all 0 mf) = map (fun b : bool => if b then v else 0) bs.
Proof.
  induction bs as [| b bs IH]; intros mf H; [reflexivity |].
  destruct mf as [| m mf']; [discriminate |].
  unfold apply_marks, set_all in *. simpl. f_equal.
  apply IH. simpl in H. lia.
Qed.

Variable zero lit_1E_14 : coord.
Variable near : coord -> coord -> coord -> bool.

Let inside_N := GammaN_inside coord zero lit_1E_14 near.
Let inside_D := GammaD_inside coord zero lit_1E_14 near.

Lemma selection_same (mesh : list (facet coord)) :
  selection inside_D mesh = selection inside_N mesh.
Proof.
  induction mesh as [| f rest IH]; simpl; [reflexivity |].
  rewrite IH.
  change (facet_inside inside_D f) with (facet_inside inside_N f).
  reflexivity.
Qed.

(** The Dirichlet mark followed by the Neumann mark is the Neumann mark. *)
Lemma two_marks_are_one (mesh : list (facet coord)) (mf : list nat) :
  List.length mf = List.length mesh ->
  match mark inside_D mesh mf 1 with
  | Some mf1 => mark inside_N mesh mf1 2
  | None => None
  end
  = mark inside_N mesh mf 2.
Proof.
  intros Hlen.
  rewrite (mark_by_selection inside_D mesh mf 1 Hlen).
  rewrite (mark_by_selection inside_N mesh mf 2 Hlen).
  rewrite selection_same.
  destruct (selection inside_N mesh) as [bs |] eqn:Es; simpl; [| reflexivity].
  pose proof (selection_length _ _ _ Es) as Hbs.
  rewrite mark_by_selection
    by (rewrite apply_marks_length; [assumption | congruence]).
  rewrite Es. simpl. now rewrite apply_marks_twice.
Qed.

(** The whole sequence, whether or not it raises. *)
Lemma sequence_by_selection (mesh : list (facet coord)) (bm : list nat) :
  List.length bm = List.length mesh ->
  marking_sequence coord zero lit_1E_14 near mesh bm
  = option_map (map (fun b : bool => if b then 2 else 0))
               (selection inside_N mesh).
Proof.
  intros Hlen. unfold marking_sequence. fold inside_N inside_D.
  assert (Hs : List.length (set_all 0 bm) = List.length mesh)
    by (unfold set_all; now rewrite length_map).
  rewrite (two_marks_are_one mesh (set_all 0 bm) Hs).
  rewrite (mark_by_selection inside_N mesh _ 2 Hs).
  destruct (selection inside_N mesh) as [bs |] eqn:Es; simpl; [| reflexivity].
  rewrite apply_marks_after_reset; [reflexivity |].
  rewrite (selection_length _ _ _ Es). unfold set_all in Hs.
  rewrite length_map in Hs. congruence.
Qed.

(** A facet off the boundary is outside, whatever its points. *)
Lemma interior_facet_outside (f : facet coord) :
  exterior f = false -> facet_inside inside_N f = Some false.
Proof.
  intros H. unfold facet_inside. rewrite H.
  destruct (vertices f) as [| x rest]; reflexivity.
Qed.

Lemma all_inside_raises (pts : list (point coord)) (b : bool) :
  all_inside inside_N pts b = None -> b = true /\ In [] pts.
Proof.
  induction pts as [| x rest IH]; simpl; [discriminate |].
  destruct (inside_N x b) as [[|] |] eqn:Ex.
  - intros H. destruct (IH H) as [Hb Hin]. split; [assumption | now right].
  - discriminate.
  - intros _. unfold inside_N, GammaN_inside in Ex.
    destruct b; [| discriminate].
    destruct x as [| x0 xs]; [| discriminate].
    split; [reflexivity | now left].
Qed.

End SelectionFacts.

(** What the facet function held before line 116 does not matter, and
    running lines 116-118 again on their own result changes nothing. *)
Theorem marking_forgets_and_repeats :
  forall (coord : Type) (zero lit_1E_14 : coord)
         (near : coord -> coord -> coord -> bool)
         (mesh : list (Subdomains.facet coord)) (bm bm' : list nat),
    List.length bm = List.length mesh ->
    List.length bm' = List.length mesh ->
    Subdomains.marking_sequence coord zero lit_1E_14 near mesh bm
    = Subdomains.marking_sequence coord zero lit_1E_14 near mesh bm'
    /\ forall marked,
         Subdomains.marking_sequence coord zero lit_1E_14 near mesh bm
         = Some marked ->
         Subdomains.marking_sequence coord zero lit_1E_14 near mesh marked
         = Some marked.
Proof.
  intros coord zero lit near mesh bm bm' H H'.
  rewrite (sequence_by_selection coord zero lit near mesh bm H).
  rewrite (sequence_by_selection coord zero lit near mesh bm' H').
  split; [reflexivity |].
  intros marked Hm.
  destruct (selection (Subdomains.GammaN_inside coord zero lit near) mesh)
    as [bs |] eqn:Es; [| discriminate].
  simpl in Hm. injection Hm as <-.
  rewrite sequence_by_selection.
  - rewrite Es. reflexivity.
  - rewrite length_map. exact (selection_length coord _ mesh bs Es).
Qed.

Lemma marking_forgets_and_repeats_witness :
  Subdomains.marking_sequence Q 0%Q UnitSquare.tol UnitSquare.near
    UnitSquare.mesh [7; 7; 7; 7; 7]
  = Subdomains.marking_sequence Q 0%Q UnitSquare.tol UnitSquare.near
      UnitSquare.mesh [1; 2; 3; 4; 5]
  /\ forall marked,
       Subdomains.marking_sequence Q 0%Q UnitSquare.tol UnitSquare.near
         UnitSquare.mesh [7; 7; 7; 7; 7]
       = Some marked ->
       Subdomains.marking_sequence Q 0%Q UnitSquare.tol UnitSquare.near
         UnitSquare.mesh marked
       = Some marked.
Proof.
  apply (marking_forgets_and_repeats Q 0%Q UnitSquare.tol UnitSquare.near
           UnitSquare.mesh [7; 7; 7; 7; 7] [1; 2; 3; 4; 5]);
    reflexivity.
Defined.

(** Line 117 has no effect on the result: on any facet function, the
    Dirichlet mark with 1 followed by the Neumann mark with 2 gives what
    the Neumann mark alone gives, so lines 116-118 amount to [set_all(0)]
    and the Neumann mark. *)
Theorem dirichlet_mark_is_overwritten :
  forall (coord : Type) (zero lit_1E_14 : coord)
         (near : coord -> coord -> coord -> bool)
         (mesh : list (Subdomains.facet coord)) (mf : list nat),
    List.length mf = List.length mesh ->
    match Subdomains.mark
            (Subdomains.GammaD_inside coord zero lit_1E_14 near) mesh mf 1 with
    | Some mf1 =>
        Subdomains.mark
          (Subdomains.GammaN_inside coord zero lit_1E_14 near) mesh mf1 2
    | None => None
    end
    = Subdomains.mark
        (Subdomains.GammaN_inside coord zero lit_1E_14 near) mesh mf 2
    /\ Subdomains.marking_sequence coord zero lit_1E_14 near mesh mf
       = Subdomains.mark
           (Subdomains.GammaN_inside coord zero lit_1E_14 near) mesh
           (Subdomains.set_all 0 mf) 2.
Proof.
  intros coord zero lit near mesh mf H. split.
  - exact (two_marks_are_one coord zero lit near mesh mf H).
  - unfold Subdomains.marking_sequence.
    apply (two_marks_are_one coord zero lit near mesh (Subdomains.set_all 0 mf)).
    unfold Subdomains.set_all. now rewrite length_map.
Qed.

Lemma dirichlet_mark_is_overwritten_witness :
  match Subdomains.mark UnitSquare.inside_D UnitSquare.mesh [7; 7; 7; 7; 7] 1 with
  | Some mf1 => Subdomains.mark UnitSquare.inside_N UnitSquare.mesh mf1 2
  | None => None
  end
  = Subdomains.mark UnitSquare.inside_N UnitSquare.mesh [7; 7; 7; 7; 7] 2
  /\ Subdomains.marking_sequence Q 0%Q UnitSquare.tol UnitSquare.near
       UnitSquare.mesh [7; 7; 7; 7; 7]
     = Subdomains.mark UnitSquare.inside_N UnitSquare.mesh
         (Subdomains.set_all 0 [7; 7; 7; 7; 7]) 2.
Proof.
  apply (dirichlet_mark_is_overwritten Q 0%Q UnitSquare.tol UnitSquare.near
           UnitSquare.mesh [7; 7; 7; 7; 7]).
  reflexivity.
Defined.

(** A facet that is not on the boundary of the mesh ends with marker 0,
    wherever it lies. *)
Theorem interior_facets_stay_unmarked :
  forall (coord : Type) (zero lit_1E_14 : coord)
         (near : coord -> coord -> coord -> bool)
         (mesh : list (Subdomains.facet coord)) (bm marked : list nat)
         (i : nat) (f : Subdomains.facet coord),
    List.length bm = List.length mesh ->
    Subdomains.marking_sequence coord zero lit_1E_14 near mesh bm = Some marked ->
    nth_error mesh i = Some f ->
    Subdomains.exterior f = false ->
    nth_error marked i = Some 0.
Proof.
  intros coord zero lit near mesh bm marked i f Hlen Hm Hf Hint.
  rewrite (sequence_by_selection coord zero lit near mesh bm Hlen) in Hm.
  destruct (selection (Subdomains.GammaN_inside coord zero lit near) mesh)
    as [bs |] eqn:Es; [| discriminate].
  simpl in Hm. injection Hm as <-.
  destruct (selection_nth coord _ mesh bs i f Es Hf) as [b [Hb Hfb]].
  rewrite (interior_facet_outside coord zero lit near f Hint) in Hfb.
  injection Hfb as <-.
  exact (map_nth_error (fun b : bool => if b then 2 else 0) i bs Hb).
Qed.

(** The diagonal of the unit square, facet 4, is interior. *)
Lemma interior_facets_stay_unmarked_witness :
  nth_error [2; 0; 0; 0; 0] 4 = Some 0.
Proof.
  apply (interior_facets_stay_unmarked Q 0%Q UnitSquare.tol UnitSquare.near
           UnitSquare.mesh [7; 7; 7; 7; 7] [2; 0; 0; 0; 0] 4
           (UnitSquare.edge (0, 0) (1, 1) (1 # 2, 1 # 2) false)%Q);
    reflexivity.
Defined.

(** The marking raises only when an exterior facet has a point without
    coordinates. *)
Theorem marking_raises_only_on_empty_point :
  forall (coord : Type) (zero lit_1E_14 : coord)
         (near : coord -> coord -> coord -> bool)
         (mesh : list (Subdomains.facet coord)) (bm : list nat),
    List.length bm = List.length mesh ->
    Subdomains.marking_sequence coord zero lit_1E_14 near mesh bm = None ->
    exists f,
      In f mesh /\ Subdomains.exterior f = true
      /\ In [] (Subdomains.vertices f ++ [Subdomains.midpoint f]).
Proof.
  intros coord zero lit near mesh bm Hlen Hm.
  rewrite (sequence_by_selection coord zero lit near mesh bm Hlen) in Hm.
  destruct (selection (Subdomains.GammaN_inside coord zero lit near) mesh)
    as [bs |] eqn:Es; [discriminate |].
  destruct (selection_fails coord _ mesh Es) as [f [Hin Hf]].
  exists f. split; [assumption |].
  exact (all_inside_raises coord zero lit near _ _ Hf).
Qed.

Lemma marking_raises_only_on_empty_point_witness :
  exists f,
    In f Degenerate.mesh /\ Subdomains.exterior f = true
    /\ In [] (Subdomains.vertices f ++ [Subdomains.midpoint f]).
Proof.
  apply (marking_raises_only_on_empty_point Q 0%Q UnitSquare.tol UnitSquare.near
           Degenerate.mesh [0]);
    reflexivity.
Defined.

(** ** The notebook as a document *)

(** The notebook has eight cells; each is a markdown cell or a code cell
    without source, outputs or execution count, and there is exactly one
    code cell: every snippet is text inside markdown, and running the
    notebook executes nothing. *)
Theorem notebook_executes_nothing :
  List.length notebook_cells_json = 8
  /\ Forall (fun c => is_markdown_cell c = true
                      \/ (is_code_cell c = true /\ blank_code_cell c = true))
            notebook_cells_json
  /\ List.length (filter is_code_cell notebook_cells_json) = 1
  /\ snippets = flat_map cell_snippets
                  (filter (fun c => String.eqb (cell_type c) "markdown")
                          notebook_cells).
Proof.
  split; [vm_compute; reflexivity |].
  split.
  - apply Forall_forall. intros c Hc.
    assert (A : forallb (fun c => is_markdown_cell c
                                  || (is_code_cell c && blank_code_cell c))
                        notebook_cells_json = true)
      by (vm_compute; reflexivity).
    pose proof (forallb_In _ notebook_cells_json A c Hc) as B.
    cbn beta in B.
    apply orb_true_iff in B. destruct B as [B | B]; [left; exact B |].
    right. now apply andb_true_iff in B.
  - split; vm_compute; reflexivity.
Qed.

(** ** The pressure forms, lines 58-62 *)

(** The notebook declares a Python 2 kernel, where [/] on two integers is
    floor division.  Each of the four forms of lines 58-61 is a product
    whose leftmost factor is [1/rho], taken before any multiplication;
    with an integer [rho] that factor is 0 for every [rho > 1], -1 for
    every negative [rho], and raises for [rho = 0]. *)
Theorem one_over_rho_floors :
  notebook_at ["metadata"; "kernelspec"; "name"] = Some (Json.Str "python2")
  /\ map (fun st => option_map Dataflow.leftmost_factor
                               (Dataflow.assigned_value st)) rho_forms
     = [Some one_over_rho; Some one_over_rho; Some one_over_rho; Some one_over_rho]
  /\ forall rho : Z,
       IntSem.eval_int (rho_env rho) one_over_rho
       = (if (rho =? 0)%Z then None else Some (1 / rho)%Z)
       /\ ((1 < rho)%Z -> IntSem.eval_int (rho_env rho) one_over_rho = Some 0%Z)
       /\ ((rho < 0)%Z -> IntSem.eval_int (rho_env rho) one_over_rho = Some (-1)%Z).
Proof.
  split; [vm_compute; reflexivity |].
  split; [vm_compute; reflexivity |].
  intros rho.
  assert (A : IntSem.eval_int (rho_env rho) one_over_rho
              = (if (rho =? 0)%Z then None else Some (1 / rho)%Z))
    by reflexivity.
  split; [exact A |]. rewrite A. split; intros H.
  - destruct (rho =? 0)%Z eqn:E0; [apply Z.eqb_eq in E0; lia |].
    f_equal. apply Z.div_small. lia.
  - destruct (rho =? 0)%Z eqn:E0; [apply Z.eqb_eq in E0; lia |].
    f_equal. symmetry. apply (Z.div_unique_neg 1 rho (-1) (1 + rho)); lia.
Qed.

(** Line 58 binds [StiffnessMatrix] and line 62 reads [Stiffness]: each
    name occurs once in the whole notebook, so the form bound at line 58
    is read by no snippet and the name read at line 62 is bound by
    none. *)
Theorem stiffness_name_mismatch :
  count_tok (Py.Name "StiffnessMatrix") notebook_toks = 1
  /\ count_tok (Py.Name "Stiffness") notebook_toks = 1
  /\ option_map Scope.binds_stmt (nth_error pressure_snippet 1)
     = Some ["StiffnessMatrix"]
  /\ option_map (fun st => Py.mem "Stiffness" (Scope.refs_stmt st))
                (nth_error pressure_snippet 5)
     = Some true
  /\ ~ In "Stiffness" all_binds
  /\ ~ In "StiffnessMatrix" all_refs.
Proof.
  split; [vm_compute; reflexivity |].
  split; [vm_compute; reflexivity |].
  split; [vm_compute; reflexivity |].
  split; [vm_compute; reflexivity |].
  split.
  - intros H. apply mem_In in H. vm_compute in H. discriminate.
  - intros H. apply mem_In in H. vm_compute in H. discriminate.
Qed.

(** ** The order of lines 92-94 *)

(** With every name replaced by what it was bound to, [W] is the energy
    of the strain of line 91 and the call of line 94 is
    [diff(W, variable(E))] with that same strain under [variable]: [W]
    is built at line 92, before line 93 rebinds [E] to [variable(E)], so
    the energy handed to [diff] holds the strain bare and never calls
    [variable]. *)
Theorem energy_is_built_before_variable :
  Dataflow.lookup "W" (Dataflow.expand [] nonlinear_snippet)
  = Some (energy_of strain_expr)
  /\ Dataflow.lookup "S" (Dataflow.expand [] nonlinear_snippet)
     = Some (Py.ECall (Py.EName "diff")
               [energy_of strain_expr;
                Py.ECall (Py.EName "variable") [strain_expr] []] [])
  /\ Py.mem "variable" (Dataflow.callees (energy_of strain_expr)) = false.
Proof.
  split; [vm_compute; reflexivity |].
  split; vm_compute; reflexivity.
Qed.

(** ** The accepted snippets read in notebook order *)

(** Read in notebook order over the snippets Python accepts, [solve] at
    line 130 gets the pressure equation of lines 61-62, whose trial and
    test functions belong to the scalar space, with an unknown [u] and a
    boundary condition [bc] that belong to the vector space of line 38;
    the vector space occurs on neither side of the equation. *)
Theorem solve_gets_pressure_equation_with_vector_unknown :
  solve_call
  = Some (pressure_form, forcing_form,
          Py.ECall (Py.EName "TrialFunction") [vector_space] [],
          Py.ECall (Py.EName "DirichletBC")
            [vector_space;
             Py.ECall (Py.EName "Constant") [Py.ENum "0.0"] [];
             Py.ECall (Py.EName "GammaD") [] []] [])
  /\ Py.mem "VectorFunctionSpace" (Dataflow.callees pressure_form) = false
  /\ Py.mem "VectorFunctionSpace" (Dataflow.callees forcing_form) = false
  /\ Py.mem "FunctionSpace" (Dataflow.callees pressure_form) = true
  /\ Py.mem "FunctionSpace" (Dataflow.callees forcing_form) = true.
Proof.
  split; [vm_compute; reflexivity |].
  repeat split; vm_compute; reflexivity.
Qed.

(** ** The snippets read in notebook order *)

(** Line 38 rebinds [V], so the boundary condition of line 120 is set on
    the vector space with the scalar value [Constant(0.0)], on the
    subdomain [GammaD()], while the pressure unknown [p] of line 33 stays
    a trial function of the scalar space. *)
Theorem dirichlet_condition_is_on_the_vector_space :
  Dataflow.lookup "bc" (bindings_before 9)
  = Some (Py.ECall (Py.EName "DirichletBC")
            [vector_space;
             Py.ECall (Py.EName "Constant") [Py.ENum "0.0"] [];
             Py.ECall (Py.EName "GammaD") [] []] [])
  /\ Dataflow.lookup "V" (bindings_before 9) = Some vector_space
  /\ Dataflow.lookup "p" (bindings_before 9)
     = Some (Py.ECall (Py.EName "TrialFunction") [scalar_space] []).
Proof.
  split; [vm_compute; reflexivity |].
  split; vm_compute; reflexivity.
Qed.
